(** * LottieFlow: the viewer component, its render session and its analysis
    request, embedded from [App.tsx] and [types.ts].

    The component is a React function component.  Its [useState] cells are
    the record [AppState]; its refs, the calls received by the render engine,
    the alerts, the console and the outbound analysis requests are the other
    fields of [World].  Every handler is a function on [World]; [commit] is
    what React does after a handler: render, attach the viewport ref, and run
    the effect of [useEffect] when one of its dependencies changed; when the
    render throws, React unmounts the tree, which [crashed] records. *)

From Stdlib Require Import List String Bool Arith Lia ZArith.
Import ListNotations.
Open Scope string_scope.

Set Warnings "-register-all".

(** JavaScript numbers.  The program never computes with a number: it copies
    numbers, compares them with [Object.is] (dependency arrays), tests them
    for truthiness ([||]) and reads lengths.  The number type is therefore a
    parameter with exactly these operations. *)
Class JSNumber (num : Type) := {
  num_eq_dec : forall a b : num, {a = b} + {a <> b};
  num_of_nat : nat -> num;
  num_falsy : num -> bool;
  num_falsy_of_nat : forall n, num_falsy (num_of_nat n) = Nat.eqb n 0
}.

(** Integers are the numbers of the concrete scenarios. *)
#[export] Instance Z_JSNumber : JSNumber Z := {
  num_eq_dec := Z.eq_dec;
  num_of_nat := Z.of_nat;
  num_falsy := Z.eqb 0;
  num_falsy_of_nat := fun n =>
    match n with O => eq_refl | S _ => eq_refl end
}.

(** [types.ts]: [renderer: 'svg' | 'canvas' | 'html']. *)
Inductive Renderer := svg | canvas | html.

Definition Renderer_eqb (a b : Renderer) : bool :=
  match a, b with
  | svg, svg | canvas, canvas | html, html => true
  | _, _ => false
  end.

Section LottieFlow.

Context {num : Type} {Num : JSNumber num}.

Definition num_eqb (a b : num) : bool :=
  if num_eq_dec a b then true else false.

(** ** Values *)

(** What [JSON.parse] returns.  An object is the list of its properties; a
    property is read at its first entry.  A string is the sequence of its
    code units. *)
Inductive json : Type :=
| JNull
| JBool (b : bool)
| JNum (n : num)
| JStr (s : string)
| JArr (items : list json)
| JObj (fields : list (string * json)).

(** A JavaScript value the program handles: [undefined] or a JSON value. *)
Inductive value : Type :=
| Undefined
| Val (j : json).

(** [ToBoolean]. *)
Definition truthy (j : json) : bool :=
  match j with
  | JNull => false
  | JBool b => b
  | JNum n => negb (num_falsy n)
  | JStr s => negb (String.eqb s "")
  | JArr _ | JObj _ => true
  end.

Definition to_boolean (v : value) : bool :=
  match v with
  | Undefined => false
  | Val j => truthy j
  end.

(** [a || b]. *)
Definition or_else (a b : value) : value :=
  if to_boolean a then a else b.

Fixpoint own (fields : list (string * json)) (k : string) : value :=
  match fields with
  | [] => Undefined
  | (k', j) :: rest => if String.eqb k' k then Val j else own rest k
  end.

(** [j.k] for the property names the program reads (fr, ip, op, w, h,
    layers, v, assets, length).  [None] is the TypeError of reading a
    property of [null]. *)
Definition get (j : json) (k : string) : option value :=
  match j with
  | JNull => None
  | JBool _ | JNum _ => Some Undefined
  | JStr s =>
      Some (if String.eqb k "length"
            then Val (JNum (num_of_nat (String.length s))) else Undefined)
  | JArr items =>
      Some (if String.eqb k "length"
            then Val (JNum (num_of_nat (List.length items))) else Undefined)
  | JObj fields => Some (own fields k)
  end.

(** [v?.k]. *)
Definition get_opt (v : value) (k : string) : value :=
  match v with
  | Undefined => Undefined
  | Val j => match get j k with
             | Some r => r
             | None => Undefined
             end
  end.

(** A value held in a state cell of type [any]: the JSON value and the
    identity of the object [JSON.parse] allocated for it. *)
Record any := { object_id : nat; content : json }.

(** [Object.is], by which React compares dependencies: primitives by value,
    objects and arrays by identity. *)
Definition Object_is (a b : any) : bool :=
  match content a, content b with
  | JNull, JNull => true
  | JBool x, JBool y => Bool.eqb x y
  | JNum x, JNum y => num_eqb x y
  | JStr x, JStr y => String.eqb x y
  | (JArr _ | JObj _), (JArr _ | JObj _) => Nat.eqb (object_id a) (object_id b)
  | _, _ => false
  end.

(** ** State *)

(** [types.ts].  The fields copied from the document hold whatever the
    document holds. *)
Record LottieMetadata := {
  name : string;
  size : num;
  fr : value;
  ip : value;
  op : value;
  w : value;
  h : value;
  layers : value
}.

Record AnimationSettings := {
  loop : bool;
  speed : num;
  backgroundColor : string;
  renderer : Renderer
}.

(** The [useState] cells of [App]. *)
Record AppState := {
  animationData : any;
  metadata : option LottieMetadata;
  isPlaying : bool;
  isAnalyzing : bool;
  analysis : option string;
  settings : AnimationSettings
}.

(** ** Rendering *)

(** [{value}] in [Stat] (line 383): React accepts as a child a string, a
    number, a boolean, [null], [undefined] and an array of such, and throws
    on an object. *)
Fixpoint valid_child (j : json) : bool :=
  match j with
  | JObj _ => false
  | JArr items => forallb valid_child items
  | _ => true
  end.

Definition renders_as_child (v : value) : bool :=
  match v with
  | Undefined => true
  | Val j => valid_child j
  end.

(** The conversion to a string of a template literal throws on an object
    with an own [toString] property, which is never a function in a parsed
    document, and on an array that holds such an object. *)
Fixpoint stringifies (j : json) : bool :=
  match j with
  | JObj fields => match own fields "toString" with
                   | Undefined => true
                   | Val _ => false
                   end
  | JArr items => forallb stringifies items
  | _ => true
  end.

Definition interpolates (v : value) : bool :=
  match v with
  | Undefined => true
  | Val j => stringifies j
  end.

(** The six [Stat] elements of the metadata card, lines 314-319: [fr] and
    [layers] are children, [w], [h], [ip] and [op] are interpolated. *)
Definition renderable (m : LottieMetadata) : bool :=
  interpolates (w m) && interpolates (h m)
  && renders_as_child (fr m) && renders_as_child (layers m)
  && interpolates (ip m) && interpolates (op m).

(** The render of [App] throws exactly when the metadata card, rendered
    once there is metadata (line 307), cannot be. *)
Definition render_throws (s : AppState) : bool :=
  match metadata s with
  | Some m => negb (renderable m)
  | None => false
  end.

(** The capability contract of the render engine: [lottie.loadAnimation]
    and the methods of the instance it returns.  [inst] is the instance. *)
Inductive call : Type :=
| loadAnimation (inst : nat) (r : Renderer) (loop_ autoplay : bool)
                (data : any)
| destroy (inst : nat)
| setSpeed (inst : nat) (s : num)
| play (inst : nat)
| pause (inst : nat)
| stop (inst : nat)
| goToAndPlay (inst : nat) (frame : num).

(** What [handleAnalyze] sends: the model and the values interpolated into
    the prompt. *)
Record request := {
  model : string;
  prompt_layers : value;
  prompt_fr : value;
  summary_fr : value;
  summary_w : value;
  summary_h : value;
  layersCount : value;
  summary_v : value;
  assetsCount : value
}.

Record World := {
  app : AppState;
  animationInstanceRef : option nat;
  containerRef : bool;
  lottie : list call;
  alerts : list string;
  console : list string;
  outbox : list request;
  in_flight : nat;
  allocated : nat;
  crashed : bool
}.

Definition with_app (f : AppState -> AppState) (x : World) : World :=
  {| app := f (app x);
     animationInstanceRef := animationInstanceRef x;
     containerRef := containerRef x;
     lottie := lottie x;
     alerts := alerts x;
     console := console x;
     outbox := outbox x;
     in_flight := in_flight x;
     allocated := allocated x;
     crashed := crashed x |}.

Definition setAnimationData (d : any) : World -> World :=
  with_app (fun s =>
    {| animationData := d; metadata := metadata s; isPlaying := isPlaying s;
       isAnalyzing := isAnalyzing s; analysis := analysis s;
       settings := settings s |}).

Definition setMetadata (m : option LottieMetadata) : World -> World :=
  with_app (fun s =>
    {| animationData := animationData s; metadata := m;
       isPlaying := isPlaying s; isAnalyzing := isAnalyzing s;
       analysis := analysis s; settings := settings s |}).

Definition setIsPlaying (b : bool) : World -> World :=
  with_app (fun s =>
    {| animationData := animationData s; metadata := metadata s;
       isPlaying := b; isAnalyzing := isAnalyzing s; analysis := analysis s;
       settings := settings s |}).

Definition setIsAnalyzing (b : bool) : World -> World :=
  with_app (fun s =>
    {| animationData := animationData s; metadata := metadata s;
       isPlaying := isPlaying s; isAnalyzing := b; analysis := analysis s;
       settings := settings s |}).

Definition setAnalysis (a : option string) : World -> World :=
  with_app (fun s =>
    {| animationData := animationData s; metadata := metadata s;
       isPlaying := isPlaying s; isAnalyzing := isAnalyzing s; analysis := a;
       settings := settings s |}).

Definition setSettings (f : AnimationSettings -> AnimationSettings)
  : World -> World :=
  with_app (fun s =>
    {| animationData := animationData s; metadata := metadata s;
       isPlaying := isPlaying s; isAnalyzing := isAnalyzing s;
       analysis := analysis s; settings := f (settings s) |}).

(** The engine receives a call. *)
Definition emit (c : call) (x : World) : World :=
  {| app := app x;
     animationInstanceRef := animationInstanceRef x;
     containerRef := containerRef x;
     lottie := lottie x ++ [c];
     alerts := alerts x;
     console := console x;
     outbox := outbox x;
     in_flight := in_flight x;
     allocated := allocated x;
     crashed := crashed x |}.

Definition set_animationInstanceRef (r : option nat) (x : World) : World :=
  {| app := app x;
     animationInstanceRef := r;
     containerRef := containerRef x;
     lottie := lottie x;
     alerts := alerts x;
     console := console x;
     outbox := outbox x;
     in_flight := in_flight x;
     allocated := allocated x;
     crashed := crashed x |}.

Definition set_containerRef (b : bool) (x : World) : World :=
  {| app := app x;
     animationInstanceRef := animationInstanceRef x;
     containerRef := b;
     lottie := lottie x;
     alerts := alerts x;
     console := console x;
     outbox := outbox x;
     in_flight := in_flight x;
     allocated := allocated x;
     crashed := crashed x |}.

Definition alert (msg : string) (x : World) : World :=
  {| app := app x;
     animationInstanceRef := animationInstanceRef x;
     containerRef := containerRef x;
     lottie := lottie x;
     alerts := alerts x ++ [msg];
     console := console x;
     outbox := outbox x;
     in_flight := in_flight x;
     allocated := allocated x;
     crashed := crashed x |}.

Definition console_error (err : string) (x : World) : World :=
  {| app := app x;
     animationInstanceRef := animationInstanceRef x;
     containerRef := containerRef x;
     lottie := lottie x;
     alerts := alerts x;
     console := console x ++ [err];
     outbox := outbox x;
     in_flight := in_flight x;
     allocated := allocated x;
     crashed := crashed x |}.

Definition send (r : request) (x : World) : World :=
  {| app := app x;
     animationInstanceRef := animationInstanceRef x;
     containerRef := containerRef x;
     lottie := lottie x;
     alerts := alerts x;
     console := console x;
     outbox := outbox x ++ [r];
     in_flight := S (in_flight x);
     allocated := allocated x;
     crashed := crashed x |}.

Definition settle (x : World) : World :=
  {| app := app x;
     animationInstanceRef := animationInstanceRef x;
     containerRef := containerRef x;
     lottie := lottie x;
     alerts := alerts x;
     console := console x;
     outbox := outbox x;
     in_flight := Nat.pred (in_flight x);
     allocated := allocated x;
     crashed := crashed x |}.

Definition set_crashed (b : bool) (x : World) : World :=
  {| app := app x;
     animationInstanceRef := animationInstanceRef x;
     containerRef := containerRef x;
     lottie := lottie x;
     alerts := alerts x;
     console := console x;
     outbox := outbox x;
     in_flight := in_flight x;
     allocated := allocated x;
     crashed := b |}.

(** [JSON.parse] returns a new object. *)
Definition allocate (x : World) : World :=
  {| app := app x;
     animationInstanceRef := animationInstanceRef x;
     containerRef := containerRef x;
     lottie := lottie x;
     alerts := alerts x;
     console := console x;
     outbox := outbox x;
     in_flight := in_flight x;
     allocated := S (allocated x);
     crashed := crashed x |}.

(** ** Observations of the engine's call log *)

Definition is_create (c : call) : bool :=
  match c with loadAnimation _ _ _ _ _ => true | _ => false end.

Definition is_destroy (c : call) : bool :=
  match c with destroy _ => true | _ => false end.

(** Number of [loadAnimation] calls; the next instance is numbered by it. *)
Definition creates (t : list call) : nat := List.length (filter is_create t).

Definition destroys (t : list call) : nat := List.length (filter is_destroy t).

(** The instances bound to the viewport after one more call. *)
Definition live_step (l : list nat) (c : call) : list nat :=
  match c with
  | loadAnimation i _ _ _ _ => l ++ [i]
  | destroy i => filter (fun j => negb (Nat.eqb j i)) l
  | _ => l
  end.

(** The instances created and not destroyed, after the calls [t]. *)
Definition live (t : list call) : list nat := fold_left live_step t [].

(** At no point of the log are two instances live. *)
Definition never_two_live (t : list call) : Prop :=
  forall k, List.length (live (firstn k t)) <= 1.

(** ** The component *)

Definition initial_settings : AnimationSettings :=
  {| loop := true; speed := num_of_nat 1; backgroundColor := "#ffffff";
     renderer := svg |}.

Definition null : any := {| object_id := 0; content := JNull |}.

Definition initial_state : AppState :=
  {| animationData := null; metadata := None; isPlaying := true;
     isAnalyzing := false; analysis := None; settings := initial_settings |}.

(** The component after it mounted: the effect ran with no document and made
    no call. *)
Definition mounted : World :=
  {| app := initial_state; animationInstanceRef := None;
     containerRef := false; lottie := []; alerts := []; console := [];
     outbox := []; in_flight := 0; allocated := 0; crashed := false |}.

(** [initAnimation], lines 40-57. *)
Definition initAnimation (data : any) (x : World) : World :=
  let x1 := match animationInstanceRef x with
            | Some i => emit (destroy i) x
            | None => x
            end in
  if containerRef x1 && truthy (content data) then
    let i := creates (lottie x1) in
    let st := settings (app x1) in
    let x2 := set_animationInstanceRef (Some i)
                (emit (loadAnimation i (renderer st) (loop st) true data) x1) in
    setIsPlaying true (emit (setSpeed i (speed st)) x2)
  else x1.

(** The body of the effect, lines 60-62. *)
Definition effect (x : World) : World :=
  if truthy (content (animationData (app x)))
  then initAnimation (animationData (app x)) x
  else x.

(** The cleanup the effect returned, lines 63-67. *)
Definition cleanup (x : World) : World :=
  match animationInstanceRef x with
  | Some i => emit (destroy i) x
  | None => x
  end.

(** [initAnimation] is a new function when one of
    [settings.loop, settings.speed, settings.renderer] changed (line 57). *)
Definition same_initAnimation (a b : AnimationSettings) : bool :=
  Bool.eqb (loop a) (loop b) && num_eqb (speed a) (speed b)
  && Renderer_eqb (renderer a) (renderer b).

(** The dependencies [animationData, initAnimation] of the effect
    (line 68). *)
Definition deps_changed (prev next : AppState) : bool :=
  negb (Object_is (animationData prev) (animationData next)
        && same_initAnimation (settings prev) (settings next)).

(** A render that throws: with no error boundary React unmounts the tree,
    which runs the cleanup of the effect and detaches the viewport ref.
    Nothing is rendered from then on. *)
Definition crash (x : World) : World :=
  set_crashed true (set_containerRef false (cleanup x)).

(** React after a handler.  The component is rendered with the new state;
    when the render throws the tree is unmounted.  Otherwise the viewport
    [div] is rendered exactly when [animationData] is truthy (lines
    184-200) and its ref is attached before the effects run; when a
    dependency changed since the state [prev] of the last commit, the old
    cleanup runs and then the effect.  Once the tree is unmounted the
    setters that late callbacks still call have nothing to render: the state
    cells record what they were called with and no commit follows. *)
Definition commit (prev : AppState) (x : World) : World :=
  if crashed x then x
  else if render_throws (app x) then crash x
  else
    let x1 := set_containerRef (truthy (content (animationData (app x)))) x in
    if deps_changed prev (app x1) then effect (cleanup x1) else x1.

Definition parse_failure : string :=
  "Failed to parse Lottie JSON. Please ensure it's a valid Lottie file.".

Definition bind {A B : Type} (m : option A) (f : A -> option B) : option B :=
  match m with
  | Some a => f a
  | None => None
  end.

Notation "x <- m ;; k" := (bind m (fun x => k))
  (at level 61, m at next level, right associativity).

(** The object literal of lines 79-88; [None] when reading a property
    throws. *)
Definition metadata_of (file_name : string) (file_size : num) (doc : json)
  : option LottieMetadata :=
  fr_ <- get doc "fr" ;;
  ip_ <- get doc "ip" ;;
  op_ <- get doc "op" ;;
  w_ <- get doc "w" ;;
  h_ <- get doc "h" ;;
  layers_ <- get doc "layers" ;;
  Some {| name := file_name; size := file_size;
          fr := fr_; ip := ip_; op := op_; w := w_; h := h_;
          layers := or_else (get_opt layers_ "length")
                            (Val (JNum (num_of_nat 0))) |}.

(** [reader.onload], lines 75-93, for the file [handleFileUpload] handed to
    the reader.  [parsed] is the outcome of [JSON.parse] on the text of the
    file: [None] when it throws.  The [catch] block catches the TypeError of
    the object literal as well. *)
Definition onload (file_name : string) (file_size : num)
  (parsed : option json) (x : World) : World :=
  match parsed with
  | None => alert parse_failure x
  | Some doc =>
      let x1 := allocate x in
      let x2 :=
        setAnimationData {| object_id := allocated x1; content := doc |} x1 in
      match metadata_of file_name file_size doc with
      | None => alert parse_failure x2
      | Some m => setAnalysis None (setMetadata (Some m) x2)
      end
  end.

(** [handlePlayPause], lines 97-105. *)
Definition handlePlayPause (x : World) : World :=
  match animationInstanceRef x with
  | None => x
  | Some i =>
      let x1 := if isPlaying (app x) then emit (pause i) x
                else emit (play i) x in
      setIsPlaying (negb (isPlaying (app x))) x1
  end.

(** [handleStop], lines 107-111. *)
Definition handleStop (x : World) : World :=
  match animationInstanceRef x with
  | None => x
  | Some i => setIsPlaying false (emit (stop i) x)
  end.

(** The [onClick] of the Restart button, lines 221-225. *)
Definition handleRestart (x : World) : World :=
  match animationInstanceRef x with
  | None => x
  | Some i => emit (goToAndPlay i (num_of_nat 0)) x
  end.

(** [handleSpeedChange], lines 113-118. *)
Definition handleSpeedChange (s : num) (x : World) : World :=
  let x1 := setSettings (fun p =>
              {| loop := loop p; speed := s;
                 backgroundColor := backgroundColor p;
                 renderer := renderer p |}) x in
  match animationInstanceRef x1 with
  | Some i => emit (setSpeed i s) x1
  | None => x1
  end.

(** The [onClick] of the Looping button. *)
Definition toggleLoop : World -> World :=
  setSettings (fun p =>
    {| loop := negb (loop p); speed := speed p;
       backgroundColor := backgroundColor p; renderer := renderer p |}).

(** The [onChange] of the renderer [select]. *)
Definition selectRenderer (r : Renderer) : World -> World :=
  setSettings (fun p =>
    {| loop := loop p; speed := speed p;
       backgroundColor := backgroundColor p; renderer := r |}).

(** The [onChange] of the colour input. *)
Definition pickBackground (c : string) : World -> World :=
  setSettings (fun p =>
    {| loop := loop p; speed := speed p; backgroundColor := c;
       renderer := renderer p |}).

Definition analysis_failed : string :=
  "AI Analysis failed. Check your API key or network.".

Definition analysis_empty : string := "Could not analyze the animation.".

(** The request of lines 125-138. *)
Definition analysis_request (s : AppState) : request :=
  let doc := Val (content (animationData s)) in
  {| model := "gemini-3-flash-preview";
     prompt_layers := match metadata s with
                      | Some m => layers m
                      | None => Undefined
                      end;
     prompt_fr := match metadata s with
                  | Some m => fr m
                  | None => Undefined
                  end;
     summary_fr := get_opt doc "fr";
     summary_w := get_opt doc "w";
     summary_h := get_opt doc "h";
     layersCount := get_opt (get_opt doc "layers") "length";
     summary_v := get_opt doc "v";
     assetsCount := get_opt (get_opt doc "assets") "length" |}.

(** The [catch] and [finally] blocks, lines 140-145. *)
Definition analysis_catch (err : string) (x : World) : World :=
  setIsAnalyzing false
    (setAnalysis (Some analysis_failed) (console_error err x)).

(** [handleAnalyze] up to its [await], lines 120-138.  [thrown] is the
    exception raised before the request leaves (the constructor of the
    client, or the call itself), if any. *)
Definition handleAnalyze (thrown : option string) (x : World) : World :=
  if negb (truthy (content (animationData (app x)))) then x
  else
    let x1 := setIsAnalyzing true x in
    match thrown with
    | Some err => analysis_catch err x1
    | None => send (analysis_request (app x)) x1
    end.

(** How the awaited request ends. *)
Inductive outcome : Type :=
| Fulfilled (text : option string)
| Rejected (err : string).

(** [response.text || "Could not analyze the animation."]. *)
Definition text_or_default (text : option string) : string :=
  match text with
  | Some s => if String.eqb s "" then analysis_empty else s
  | None => analysis_empty
  end.

(** [handleAnalyze] after its [await], lines 139-145. *)
Definition handleAnalyze_resume (o : outcome) (x : World) : World :=
  match o with
  | Fulfilled text =>
      setIsAnalyzing false (setAnalysis (Some (text_or_default text)) x)
  | Rejected err => analysis_catch err x
  end.

(** ** The user interface *)

(** The transport controls and the controls bar are rendered only while
    [animationData] is truthy (lines 203 and 236), by a tree that is
    mounted. *)
Definition controls_shown (x : World) : bool :=
  negb (crashed x) && truthy (content (animationData (app x))).

(** The AI Analysis button is rendered with the metadata card and is
    [disabled={isAnalyzing}]. *)
Definition analyze_enabled (x : World) : bool :=
  match metadata (app x) with
  | Some _ => negb (isAnalyzing (app x))
  | None => false
  end.

Inductive event : Type :=
| FileRead (file_name : string) (file_size : num) (parsed : option json)
| ClickPlayPause
| ClickStop
| ClickRestart
| SpeedInput (s : num)
| ClickLoop
| SelectRenderer (r : Renderer)
| ColorInput (c : string)
| ClickAnalyze (thrown : option string)
| AnalysisSettled (o : outcome).

Definition when (b : bool) (f : World -> World) (x : World) : World :=
  if b then f x else x.

(** What the event's handler does; an event on a control that is not
    rendered, or is disabled, reaches no handler.  The speed slider is a
    controlled input showing [settings.speed]: its [onChange] is delivered
    only for a value that differs from it.  The analysis button is gone
    with the tree; the callbacks of a file read and of a pending request
    run all the same. *)
Definition dispatch (e : event) (x : World) : World :=
  match e with
  | FileRead file_name file_size parsed => onload file_name file_size parsed x
  | ClickPlayPause => when (controls_shown x) handlePlayPause x
  | ClickStop => when (controls_shown x) handleStop x
  | ClickRestart => when (controls_shown x) handleRestart x
  | SpeedInput s =>
      when (controls_shown x && negb (num_eqb s (speed (settings (app x)))))
           (handleSpeedChange s) x
  | ClickLoop => when (controls_shown x) toggleLoop x
  | SelectRenderer r => when (controls_shown x) (selectRenderer r) x
  | ColorInput c => when (controls_shown x) (pickBackground c) x
  | ClickAnalyze thrown =>
      when (negb (crashed x) && analyze_enabled x) (handleAnalyze thrown) x
  | AnalysisSettled o =>
      when (negb (Nat.eqb (in_flight x) 0))
           (fun y => handleAnalyze_resume o (settle y)) x
  end.

(** One turn of the event loop: the handler, then React's commit. *)
Definition step (x : World) (e : event) : World :=
  commit (app x) (dispatch e x).

Definition run (x : World) (es : list event) : World := fold_left step es x.

(** A world the component can be in. *)
Inductive reachable : World -> Prop :=
| reachable_mounted : reachable mounted
| reachable_step x e : reachable x -> reachable (step x e).

(** ** The invariant of the component *)

(** The session the ref holds, against the instances that are live: while
    the viewport is rendered the ref holds the one live instance, and no
    instance is live while it is not. *)
Definition session_ok (shown : bool) (r : option nat) (t : list call)
  : Prop :=
  if shown then exists i, r = Some i /\ live t = [i] else live t = [].

Record Inv (x : World) : Prop := {
  inv_container : containerRef x = controls_shown x;
  inv_session :
    session_ok (controls_shown x) (animationInstanceRef x) (lottie x);
  inv_one : never_two_live (lottie x);
  inv_fresh : object_id (animationData (app x)) <= allocated x;
  inv_flight : in_flight x = if isAnalyzing (app x) then 1 else 0;
  inv_meta : isAnalyzing (app x) = true -> metadata (app x) <> None;
  inv_renders : crashed x = false -> render_throws (app x) = false
}.

(** The calls of a teardown: [destroy] on the instance the ref holds. *)
Definition teardown (r : option nat) : list call :=
  match r with
  | Some i => [destroy i]
  | None => []
  end.

(** A document: what [JSON.parse] returns for an object or an array. *)
Definition is_document (j : json) : bool :=
  match j with
  | JArr _ | JObj _ => true
  | _ => false
  end.

(** The metadata with every field copied from the document as it is:
    [fr], [ip], [op], [w], [h] whatever the document holds at that name
    ([undefined] when it holds nothing), [layers] as
    [layers?.length || 0]. *)
Definition copied_metadata (file_name : string) (file_size : num)
  (doc : json) : LottieMetadata :=
  {| name := file_name; size := file_size;
     fr := get_opt (Val doc) "fr"; ip := get_opt (Val doc) "ip";
     op := get_opt (Val doc) "op"; w := get_opt (Val doc) "w";
     h := get_opt (Val doc) "h";
     layers := or_else (get_opt (get_opt (Val doc) "layers") "length")
                       (Val (JNum (num_of_nat 0))) |}.

(** The event is the load of a document, and its metadata renders. *)
Definition rendered_load (e : event) : bool :=
  match e with
  | FileRead fn fs (Some j) =>
      is_document j && renderable (copied_metadata fn fs j)
  | _ => false
  end.

(** The length of the layer list of a document, 0 when the document has no
    [layers]; undefined when [layers] is not a list. *)
Definition layer_count (fields : list (string * json)) : option nat :=
  match own fields "layers" with
  | Undefined => Some 0
  | Val (JArr items) => Some (List.length items)
  | Val _ => None
  end.


(** ** Further observations *)

(** React runs the cleanup of the effect a last time when the component
    unmounts (lines 63-67). *)
Definition unmount (x : World) : World := cleanup x.

(** [{analysis && (...)}], lines 338-342: the text the analysis panel
    shows, [None] when the panel is not rendered. *)
Definition analysis_panel (s : AppState) : option string :=
  match analysis s with
  | Some a => if String.eqb a "" then None else Some a
  | None => None
  end.

(** The last [loadAnimation] the engine received. *)
Definition last_create (t : list call) : option call :=
  fold_left (fun acc c => if is_create c then Some c else acc) t None.

(** The last speed instance [i] was given. *)
Definition last_speed (i : nat) (t : list call) : option num :=
  fold_left (fun acc c =>
               match c with
               | setSpeed j s => if Nat.eqb j i then Some s else acc
               | _ => acc
               end) t None.

(** The instance the ref holds is the one created last, it was created with
    the renderer and the loop of the settings on the loaded document, and
    the last speed it was given is the speed of the settings. *)
Definition session_current (x : World) : Prop :=
  exists i d,
    animationInstanceRef x = Some i
    /\ last_create (lottie x)
       = Some (loadAnimation i (renderer (settings (app x)))
                 (loop (settings (app x))) true d)
    /\ content d = content (animationData (app x))
    /\ last_speed i (lottie x) = Some (speed (settings (app x))).

(** What the state cells keep in step with each other. *)
Record Sync (x : World) : Prop := {
  sync_session : controls_shown x = true -> session_current x;
  sync_metadata :
    content (animationData (app x)) <> JNull ->
    exists fn fs,
      metadata (app x)
      = Some (copied_metadata fn fs (content (animationData (app x))));
  sync_analysis : analysis (app x) <> Some ""
}.

(** ** The scenario document of the specification *)

Definition scenario_fields : list (string * json) :=
  [ ("fr", JNum (num_of_nat 30)); ("ip", JNum (num_of_nat 0));
    ("op", JNum (num_of_nat 90)); ("w", JNum (num_of_nat 512));
    ("h", JNum (num_of_nat 512));
    ("layers", JArr [JObj []; JObj []; JObj []]);
    ("v", JStr "5.1"); ("assets", JArr []) ].

Definition scenario_document : json := JObj scenario_fields.

Definition scenario_upload : event :=
  FileRead "scenario.json" (num_of_nat 2048) (Some scenario_document).

(** The component with the scenario document loaded. *)
Definition loaded : World := run mounted [scenario_upload].

(** The same with an analysis request in flight. *)
Definition analyzing : World :=
  run mounted [scenario_upload; ClickAnalyze None].

(** * Properties *)

(** ** [Object.is] and the dependencies of the effect *)

Lemma num_eqb_refl (a : num) : num_eqb a a = true.
Proof. unfold num_eqb. destruct (num_eq_dec a a); congruence. Qed.

Lemma num_eqb_eq (a b : num) : num_eqb a b = true <-> a = b.
Proof.
  unfold num_eqb. destruct (num_eq_dec a b); split; congruence.
Qed.

Lemma Renderer_eqb_refl (r : Renderer) : Renderer_eqb r r = true.
Proof. destruct r; reflexivity. Qed.

Lemma Object_is_refl (a : any) : Object_is a a = true.
Proof.
  unfold Object_is. destruct (content a); auto using num_eqb_refl,
    String.eqb_refl, Bool.eqb_reflx, Nat.eqb_refl.
Qed.

Lemma Object_is_truthy (a b : any) :
  Object_is a b = true -> truthy (content a) = truthy (content b).
Proof.
  unfold Object_is.
  destruct (content a), (content b); simpl; try congruence.
  - intros E. apply Bool.eqb_prop in E. congruence.
  - intros E. apply num_eqb_eq in E. congruence.
  - intros E. apply String.eqb_eq in E. congruence.
Qed.

Lemma same_initAnimation_refl (s : AnimationSettings) :
  same_initAnimation s s = true.
Proof.
  unfold same_initAnimation.
  now rewrite Bool.eqb_reflx, num_eqb_refl, Renderer_eqb_refl.
Qed.

Lemma deps_changed_refl (s : AppState) : deps_changed s s = false.
Proof.
  unfold deps_changed.
  now rewrite Object_is_refl, same_initAnimation_refl.
Qed.

(** ** The call log *)

Lemma live_snoc (t : list call) (c : call) :
  live (t ++ [c]) = live_step (live t) c.
Proof. unfold live. now rewrite fold_left_app. Qed.

Lemma creates_snoc (t : list call) (c : call) :
  creates (t ++ [c]) = creates t + (if is_create c then 1 else 0).
Proof.
  unfold creates. rewrite filter_app, length_app. simpl.
  destruct (is_create c); reflexivity.
Qed.

Lemma never_two_live_nil : never_two_live [].
Proof. intros k. destruct k; simpl; lia. Qed.

Lemma never_two_live_snoc (t : list call) (c : call) :
  never_two_live t -> List.length (live (t ++ [c])) <= 1 ->
  never_two_live (t ++ [c]).
Proof.
  intros Ht Hc k. destruct (Nat.le_gt_cases k (List.length t)) as [Hk | Hk].
  - rewrite firstn_app. replace (k - List.length t) with 0 by lia.
    simpl. rewrite app_nil_r. apply Ht.
  - rewrite firstn_all2; [exact Hc |]. rewrite length_app. simpl. lia.
Qed.

Lemma never_two_live_now (t : list call) :
  never_two_live t -> List.length (live t) <= 1.
Proof.
  intros Ht. specialize (Ht (List.length t)). now rewrite firstn_all in Ht.
Qed.

(** A call that neither creates nor destroys leaves the live instances. *)
Lemma never_two_live_quiet (t : list call) (c : call) :
  is_create c = false -> is_destroy c = false ->
  never_two_live t ->
  live (t ++ [c]) = live t /\ never_two_live (t ++ [c]).
Proof.
  intros Hc Hd Ht.
  assert (E : live (t ++ [c]) = live t).
  { rewrite live_snoc. destruct c; simpl in *; congruence. }
  split; [exact E |]. apply never_two_live_snoc; [exact Ht |].
  rewrite E. now apply never_two_live_now.
Qed.

(** Every [loadAnimation] is made on a free viewport. *)
Lemma never_two_live_create (t : list call) (k : nat) i r l a d :
  never_two_live t ->
  nth_error t k = Some (loadAnimation i r l a d) ->
  live (firstn k t) = [].
Proof.
  intros Ht Hk.
  assert (Hlen : k < List.length t).
  { apply nth_error_Some. congruence. }
  specialize (Ht (S k)).
  destruct (nth_error_split t k Hk) as (t1 & t2 & -> & <-).
  rewrite firstn_app, firstn_all, Nat.sub_diag; simpl.
  rewrite app_nil_r.
  replace (t1 ++ loadAnimation i r l a d :: t2)%list
    with ((t1 ++ [loadAnimation i r l a d]) ++ t2)%list in Ht
    by (now rewrite <- app_assoc).
  replace (S (List.length t1))
    with (List.length (t1 ++ [loadAnimation i r l a d])%list) in Ht
    by (rewrite length_app; simpl; lia).
  rewrite firstn_app, firstn_all, Nat.sub_diag in Ht; simpl in Ht.
  rewrite app_nil_r, live_snoc in Ht. simpl in Ht.
  rewrite length_app in Ht. simpl in Ht.
  destruct (live t1); [reflexivity | simpl in Ht; lia].
Qed.

(** ** React's commit *)

Lemma commit_frame (prev : AppState) (y : World) :
  animationData (app (commit prev y)) = animationData (app y)
  /\ metadata (app (commit prev y)) = metadata (app y)
  /\ isAnalyzing (app (commit prev y)) = isAnalyzing (app y)
  /\ analysis (app (commit prev y)) = analysis (app y)
  /\ settings (app (commit prev y)) = settings (app y)
  /\ alerts (commit prev y) = alerts y
  /\ console (commit prev y) = console y
  /\ outbox (commit prev y) = outbox y
  /\ in_flight (commit prev y) = in_flight y
  /\ allocated (commit prev y) = allocated y.
Proof.
  unfold commit, crash, effect, cleanup, initAnimation.
  destruct y as [s r c t al co ob fl n cr]; simpl.
  destruct cr; simpl; [repeat split |].
  destruct (render_throws s); simpl; [destruct r; repeat split |].
  destruct (deps_changed prev s); simpl; [| repeat split].
  destruct r; simpl;
    destruct (truthy (content (animationData s))); simpl; repeat split.
Qed.

(** Once the tree is unmounted there is no commit. *)
Lemma commit_crashed (prev : AppState) (y : World) :
  crashed y = true -> commit prev y = y.
Proof. unfold commit. now intros ->. Qed.

(** The render throws: the tree is unmounted. *)
Lemma commit_crash (prev : AppState) (y : World) :
  crashed y = false -> render_throws (app y) = true ->
  commit prev y = crash y.
Proof. unfold commit. now intros -> ->. Qed.

(** Nothing the effect depends on changed: the commit attaches the ref and
    makes no call. *)
Lemma commit_quiet (prev : AppState) (y : World) :
  crashed y = false -> render_throws (app y) = false ->
  deps_changed prev (app y) = false ->
  commit prev y = set_containerRef (controls_shown y) y.
Proof.
  unfold commit, controls_shown. simpl. now intros -> -> ->.
Qed.

Lemma commit_id (prev : AppState) (y : World) :
  (crashed y = false -> render_throws (app y) = false) ->
  deps_changed prev (app y) = false ->
  containerRef y = controls_shown y ->
  commit prev y = y.
Proof.
  intros Hr Hd Hc. destruct (crashed y) eqn:Hcr.
  - now apply commit_crashed.
  - rewrite (commit_quiet prev y Hcr (Hr eq_refl) Hd), <- Hc.
    now destruct y.
Qed.

Lemma commit_same (x : World) : Inv x -> commit (app x) x = x.
Proof.
  intros I. apply commit_id.
  - apply I.
  - apply deps_changed_refl.
  - apply I.
Qed.

Lemma live_app (t u : list call) :
  live (t ++ u) = fold_left live_step u (live t).
Proof. unfold live. now rewrite fold_left_app. Qed.

Lemma never_two_live_app (t u : list call) :
  never_two_live t ->
  (forall k, List.length (fold_left live_step (firstn k u) (live t)) <= 1) ->
  never_two_live (t ++ u).
Proof.
  intros Ht Hu k. rewrite firstn_app.
  destruct (Nat.le_gt_cases k (List.length t)) as [Hk | Hk].
  - replace (k - List.length t) with 0 by lia. simpl.
    rewrite app_nil_r. apply Ht.
  - rewrite firstn_all2 by lia. rewrite live_app. apply Hu.
Qed.

Lemma creates_app (t u : list call) : creates (t ++ u) = creates t + creates u.
Proof. unfold creates. now rewrite filter_app, length_app. Qed.

Lemma creates_teardown (r : option nat) : creates (teardown r) = 0.
Proof. now destruct r. Qed.

(** A dependency changed and a document is loaded: the old instance is
    destroyed (by the cleanup, and again by [initAnimation]), then the new
    one is created. *)
Lemma commit_rebuild (prev : AppState) (y : World) :
  render_throws (app y) = false ->
  deps_changed prev (app y) = true ->
  controls_shown y = true ->
  let n := creates (lottie y) in
  let st := settings (app y) in
  lottie (commit prev y) =
    (lottie y ++ teardown (animationInstanceRef y)
       ++ teardown (animationInstanceRef y)
       ++ [loadAnimation n (renderer st) (loop st) true
             (animationData (app y));
           setSpeed n (speed st)])%list
  /\ animationInstanceRef (commit prev y) = Some n
  /\ containerRef (commit prev y) = true
  /\ crashed (commit prev y) = false.
Proof.
  unfold controls_shown, commit, effect, cleanup, initAnimation.
  destruct y as [s r c t al co ob fl n0 cr]; simpl.
  intros -> -> Htr. destruct cr; [discriminate |]. simpl in Htr.
  destruct r as [i |]; simpl; rewrite Htr; simpl.
  - rewrite !creates_snoc; simpl. rewrite !Nat.add_0_r.
    repeat split. now rewrite <- !app_assoc.
  - repeat split. now rewrite <- !app_assoc.
Qed.

(** A dependency changed and no document is loaded: the cleanup alone. *)
Lemma commit_teardown (prev : AppState) (y : World) :
  crashed y = false -> render_throws (app y) = false ->
  deps_changed prev (app y) = true ->
  controls_shown y = false ->
  lottie (commit prev y) = (lottie y ++ teardown (animationInstanceRef y))%list
  /\ animationInstanceRef (commit prev y) = animationInstanceRef y
  /\ containerRef (commit prev y) = false
  /\ crashed (commit prev y) = false.
Proof.
  unfold controls_shown, commit, effect, cleanup, initAnimation.
  destruct y as [s r c t al co ob fl n0 cr]; simpl.
  intros -> -> -> Htr. simpl in Htr.
  destruct r as [i |]; simpl; rewrite Htr; simpl.
  - repeat split.
  - repeat split. now rewrite app_nil_r.
Qed.

(** The unmounted tree: the cleanup ran, the ref is detached. *)
Lemma crash_log (y : World) :
  lottie (crash y) = (lottie y ++ teardown (animationInstanceRef y))%list
  /\ animationInstanceRef (crash y) = animationInstanceRef y
  /\ containerRef (crash y) = false
  /\ crashed (crash y) = true.
Proof.
  unfold crash, cleanup. destruct (animationInstanceRef y) eqn:E; simpl;
    rewrite ?E, ?app_nil_r; repeat split.
Qed.

Lemma crashed_commit (prev : AppState) (y : World) :
  crashed (commit prev y) = crashed y || render_throws (app y).
Proof.
  unfold commit, crash, effect, cleanup, initAnimation.
  destruct y as [s r c t al co ob fl n0 cr]; simpl.
  destruct cr; simpl; [reflexivity |].
  destruct (render_throws s); simpl; [reflexivity |].
  destruct (deps_changed prev s); simpl; [| reflexivity].
  destruct r; simpl;
    destruct (truthy (content (animationData s))); reflexivity.
Qed.

Lemma controls_shown_commit (prev : AppState) (y : World) :
  render_throws (app y) = false ->
  controls_shown (commit prev y) = controls_shown y.
Proof.
  intros Hr. unfold controls_shown.
  destruct (commit_frame prev y) as (-> & _).
  now rewrite crashed_commit, Hr, orb_false_r.
Qed.

(** The session part of the invariant is re-established by every commit:
    [b] says whether a session was there before. *)
Lemma commit_session (prev : AppState) (y : World) (b : bool) :
  session_ok b (animationInstanceRef y) (lottie y) ->
  never_two_live (lottie y) ->
  (crashed y = true -> b = false /\ containerRef y = false) ->
  (crashed y = false -> b = truthy (content (animationData prev))) ->
  containerRef (commit prev y) = controls_shown (commit prev y)
  /\ session_ok (controls_shown (commit prev y))
                (animationInstanceRef (commit prev y))
                (lottie (commit prev y))
  /\ never_two_live (lottie (commit prev y)).
Proof.
  intros Hs Ht Hdead Halive.
  assert (Hfree : forall k,
    List.length (fold_left live_step
      (firstn k (teardown (animationInstanceRef y))) (live (lottie y))) <= 1
    /\ fold_left live_step (teardown (animationInstanceRef y))
                           (live (lottie y)) = []).
  { intros k. unfold session_ok in Hs. destruct b.
    - destruct Hs as (i & -> & ->). simpl.
      destruct k as [| [| k]]; simpl; rewrite ?Nat.eqb_refl; simpl;
        split; auto.
    - rewrite Hs. destruct (animationInstanceRef y);
        destruct k as [| [| k]]; simpl; split; auto. }
  destruct (crashed y) eqn:Hcr.
  - rewrite (commit_crashed prev y Hcr).
    destruct (Hdead eq_refl) as (-> & Hc).
    unfold controls_shown. rewrite Hcr. simpl. auto.
  - specialize (Halive eq_refl). clear Hdead.
    destruct (render_throws (app y)) eqn:Hr.
    + rewrite (commit_crash prev y Hcr Hr).
      destruct (crash_log y) as (El & Er & Ec & Ek).
      unfold controls_shown. rewrite El, Ec, Ek. simpl.
      split; [reflexivity |]. split.
      * rewrite live_app. now destruct (Hfree 0) as [_ ->].
      * apply never_two_live_app; [exact Ht |]. intros k. apply Hfree.
    + rewrite (controls_shown_commit prev y Hr).
      destruct (deps_changed prev (app y)) eqn:Hd.
      * destruct (controls_shown y) eqn:Hc.
        -- destruct (commit_rebuild prev y Hr Hd Hc) as (-> & -> & -> & _).
           split; [reflexivity |]. split.
           ++ simpl. eexists; split; [reflexivity |].
              rewrite live_app, fold_left_app. destruct (Hfree 0) as [_ ->].
              destruct (animationInstanceRef y); reflexivity.
           ++ apply never_two_live_app; [exact Ht |]. intros k.
              destruct (Hfree 0) as [_ E].
              destruct (animationInstanceRef y) as [i |]; simpl in *.
              ** destruct k as [| [| [| [| k]]]]; simpl; try rewrite E;
                   simpl; rewrite ?firstn_nil; simpl; try lia.
                 apply (never_two_live_now _ Ht).
              ** destruct k as [| [| k]]; simpl; try rewrite E; simpl;
                   rewrite ?firstn_nil; simpl; lia.
        -- destruct (commit_teardown prev y Hcr Hr Hd Hc)
             as (-> & -> & -> & _).
           split; [reflexivity |]. split.
           ++ simpl. rewrite live_app. now destruct (Hfree 0) as [_ ->].
           ++ apply never_two_live_app; [exact Ht |]. intros k. apply Hfree.
      * rewrite (commit_quiet prev y Hcr Hr Hd). simpl.
        split; [reflexivity |].
        assert (E : b = controls_shown y).
        { rewrite Halive. unfold controls_shown. rewrite Hcr. simpl.
          apply Object_is_truthy. unfold deps_changed in Hd.
          apply negb_false_iff, andb_true_iff in Hd. tauto. }
        rewrite <- E. auto.
Qed.

(** ** The handlers *)

(** A handler leaves the ref and sends the engine at most one call, which
    neither creates nor destroys an instance. *)
Lemma dispatch_log (e : event) (x : World) :
  animationInstanceRef (dispatch e x) = animationInstanceRef x
  /\ (lottie (dispatch e x) = lottie x
      \/ exists c, lottie (dispatch e x) = (lottie x ++ [c])%list
                   /\ is_create c = false /\ is_destroy c = false).
Proof.
  destruct x as [s r c t al co ob fl n cr].
  destruct e as [fn fs [doc |] | | | | sp | | rd | col | [err |] | [tx | err]];
    unfold dispatch, when, controls_shown, analyze_enabled, onload,
      handlePlayPause, handleStop, handleRestart, handleSpeedChange,
      handleAnalyze, handleAnalyze_resume, analysis_catch; simpl;
    repeat match goal with
      | |- context [match ?m with _ => _ end] => destruct m; simpl
      end;
    split; try reflexivity; try (left; reflexivity);
    right; eexists; repeat split.
Qed.

Lemma dispatch_session (e : event) (x : World) :
  Inv x ->
  session_ok (controls_shown x) (animationInstanceRef (dispatch e x))
             (lottie (dispatch e x))
  /\ never_two_live (lottie (dispatch e x)).
Proof.
  intros I. destruct (dispatch_log e x) as (-> & [-> | (c & -> & Hc & Hd)]).
  - split; [apply I | apply I].
  - destruct (never_two_live_quiet (lottie x) c Hc Hd (inv_one x I))
      as [E Hn].
    split; [| exact Hn]. unfold session_ok. rewrite E. apply I.
Qed.

Lemma dispatch_rest (e : event) (x : World) :
  Inv x ->
  object_id (animationData (app (dispatch e x))) <= allocated (dispatch e x)
  /\ in_flight (dispatch e x)
     = (if isAnalyzing (app (dispatch e x)) then 1 else 0)
  /\ (isAnalyzing (app (dispatch e x)) = true ->
      metadata (app (dispatch e x)) <> None).
Proof.
  intros [_ _ _ Hf Hfl Hm _].
  destruct x as [s r c t al co ob fl n cr]; simpl in *.
  destruct e as [fn fs [doc |] | | | | sp | | rd | col | [err |] | [tx | err]];
    unfold dispatch, when, controls_shown, analyze_enabled, onload,
      handlePlayPause, handleStop, handleRestart, handleSpeedChange,
      handleAnalyze, handleAnalyze_resume, analysis_catch; simpl;
    repeat match goal with
      | |- context [match ?m with _ => _ end] =>
          let E := fresh "E" in destruct m eqn:E; simpl in *
      end;
    subst; simpl in *; repeat split; auto; try lia; try congruence;
    destruct (metadata s); destruct (isAnalyzing s); destruct cr;
    simpl in *; congruence.
Qed.

(** A handler neither mounts nor unmounts, and leaves the viewport ref. *)
Lemma dispatch_mounted (e : event) (x : World) :
  crashed (dispatch e x) = crashed x
  /\ containerRef (dispatch e x) = containerRef x.
Proof.
  destruct x as [s r c t al co ob fl n cr].
  destruct e as [fn fs [doc |] | | | | sp | | rd | col | [err |] | [tx | err]];
    unfold dispatch, when, controls_shown, analyze_enabled, onload,
      handlePlayPause, handleStop, handleRestart, handleSpeedChange,
      handleAnalyze, handleAnalyze_resume, analysis_catch; simpl;
    repeat match goal with
      | |- context [match ?m with _ => _ end] => destruct m; simpl
      end;
    split; reflexivity.
Qed.

Lemma render_throws_metadata (s s' : AppState) :
  metadata s' = metadata s -> render_throws s' = render_throws s.
Proof. unfold render_throws. now intros ->. Qed.

(** Every handler followed by React's commit keeps the invariant. *)
Lemma step_Inv (x : World) (e : event) : Inv x -> Inv (step x e).
Proof.
  intros I. unfold step.
  destruct (dispatch_session e x I) as [Hs Hn].
  destruct (dispatch_rest e x I) as (Hf & Hfl & Hm).
  destruct (dispatch_mounted e x) as [Ecr Eco].
  destruct (commit_session (app x) (dispatch e x) (controls_shown x) Hs Hn)
    as (Hc & Hs' & Hn').
  { intros Hcr. rewrite Ecr in Hcr. rewrite Eco, (inv_container x I).
    unfold controls_shown. now rewrite Hcr. }
  { intros Hcr. rewrite Ecr in Hcr. unfold controls_shown.
    now rewrite Hcr. }
  destruct (commit_frame (app x) (dispatch e x))
    as (Ea & Em & Eg & _ & _ & _ & _ & _ & Efl & En).
  constructor.
  - exact Hc.
  - exact Hs'.
  - exact Hn'.
  - rewrite En. rewrite Ea. exact Hf.
  - rewrite Efl. rewrite Eg. exact Hfl.
  - rewrite Eg. rewrite Em. exact Hm.
  - rewrite crashed_commit. intros Hcr.
    apply orb_false_iff in Hcr as [_ Hr].
    now rewrite (render_throws_metadata _ _ Em).
Qed.

Lemma mounted_Inv : Inv mounted.
Proof.
  constructor; simpl; try reflexivity; try congruence; try lia.
  apply never_two_live_nil.
Qed.

Lemma reachable_Inv (x : World) : reachable x -> Inv x.
Proof.
  induction 1; [apply mounted_Inv | now apply step_Inv].
Qed.

Lemma reachable_run (x : World) (es : list event) :
  reachable x -> reachable (run x es).
Proof.
  revert x. induction es as [| e es IH]; intros x Hx; simpl; auto.
  apply IH. now constructor.
Qed.

(** ** Loading a file *)

Lemma get_not_null (doc : json) (k : string) :
  doc <> JNull -> get doc k = Some (get_opt (Val doc) k).
Proof. destruct doc; simpl; congruence. Qed.

Lemma metadata_of_not_null (fn : string) (fs : num) (doc : json) :
  doc <> JNull -> metadata_of fn fs doc = Some (copied_metadata fn fs doc).
Proof.
  intros Hd. unfold metadata_of, copied_metadata.
  now rewrite !(get_not_null doc _ Hd).
Qed.

Lemma onload_not_null (fn : string) (fs : num) (doc : json) (x : World) :
  doc <> JNull ->
  onload fn fs (Some doc) x =
    setAnalysis None
      (setMetadata (Some (copied_metadata fn fs doc))
         (setAnimationData {| object_id := S (allocated x); content := doc |}
            (allocate x))).
Proof.
  intros Hd. unfold onload. now rewrite metadata_of_not_null.
Qed.

Lemma or_zero_length (n : nat) :
  or_else (Val (JNum (num_of_nat n))) (Val (JNum (num_of_nat 0)))
  = Val (JNum (num_of_nat n)).
Proof.
  unfold or_else; simpl. rewrite num_falsy_of_nat.
  destruct n; reflexivity.
Qed.

Lemma deps_unchanged (s s' : AppState) :
  animationData s' = animationData s -> settings s' = settings s ->
  deps_changed s s' = false.
Proof.
  intros Ea Es. unfold deps_changed.
  now rewrite Ea, Es, Object_is_refl, same_initAnimation_refl.
Qed.

(** C3. For every document D (a JSON object whose [layers], when present, is
    a list) read from a file with a name and a byte size, the load produces
    the metadata whose [fr], [ip], [op], [w], [h] are D's top-level fields
    of these names, whose [layers] is the length of D's layer list, 0 when
    D has none, and whose [name] and [size] are the file's. *)
Theorem load_derives_metadata (x : World) (fn : string) (fs : num)
  (fields : list (string * json)) (n : nat) :
  layer_count fields = Some n ->
  metadata (app (step x (FileRead fn fs (Some (JObj fields))))) =
    Some {| name := fn; size := fs;
            fr := own fields "fr"; ip := own fields "ip";
            op := own fields "op"; w := own fields "w";
            h := own fields "h";
            layers := Val (JNum (num_of_nat n)) |}.
Proof.
  intros Hn. unfold step.
  destruct (commit_frame (app x)
              (dispatch (FileRead fn fs (Some (JObj fields))) x))
    as (_ & -> & _).
  unfold dispatch. rewrite onload_not_null by discriminate. simpl.
  unfold copied_metadata. simpl.
  do 2 f_equal. unfold layer_count in Hn.
  destruct (own fields "layers") as [| [ | | | | items | ]]; simpl;
    try discriminate; injection Hn as <-.
  - reflexivity.
  - apply or_zero_length.
Qed.

(** C4. A file whose text [JSON.parse] rejects changes nothing: the document,
    the metadata, the analysis, the settings, the render session and the
    engine's call log are those of before; only the alert is raised. *)
Theorem malformed_upload_changes_nothing (x : World) (fn : string)
  (fs : num) :
  reachable x ->
  step x (FileRead fn fs None) = alert parse_failure x.
Proof.
  intros Hx. unfold step. unfold dispatch. unfold onload.
  apply commit_id.
  - apply (inv_renders x (reachable_Inv x Hx)).
  - apply deps_changed_refl.
  - apply (inv_container x (reachable_Inv x Hx)).
Qed.

(** C8. Every load that succeeds (the parsed value is not [null], so that
    the handler reaches [setAnalysis(null)]) clears the analysis, whatever
    it was. *)
Theorem load_clears_analysis (x : World) (fn : string) (fs : num)
  (doc : json) :
  doc <> JNull ->
  analysis (app (step x (FileRead fn fs (Some doc)))) = None.
Proof.
  intros Hd. unfold step.
  destruct (commit_frame (app x) (dispatch (FileRead fn fs (Some doc)) x))
    as (_ & _ & _ & -> & _).
  unfold dispatch. now rewrite onload_not_null.
Qed.

(** C10, amended. Every value [JSON.parse] returns other than [null],
    whose metadata the card can render, is accepted as a document without
    an alert and without the page failing, whatever it lacks: the parsed
    value becomes [animationData], the metadata copies [fr], [ip], [op],
    [w], [h] as they are ([undefined] when absent) and only [layers] has
    the default 0; a document lacking all six fields gets the metadata with
    five [undefined] fields and [layers] 0. *)
Theorem upload_accepts_any_non_null (x : World) (fn : string) (fs : num)
  (doc : json) :
  crashed x = false ->
  doc <> JNull ->
  renderable (copied_metadata fn fs doc) = true ->
  let x' := step x (FileRead fn fs (Some doc)) in
  crashed x' = false
  /\ alerts x' = alerts x
  /\ content (animationData (app x')) = doc
  /\ metadata (app x') = Some (copied_metadata fn fs doc)
  /\ (Forall (fun k => get_opt (Val doc) k = Undefined)
             ["fr"; "ip"; "op"; "w"; "h"; "layers"] ->
      metadata (app x') =
        Some {| name := fn; size := fs; fr := Undefined; ip := Undefined;
                op := Undefined; w := Undefined; h := Undefined;
                layers := Val (JNum (num_of_nat 0)) |}).
Proof.
  intros Hcr Hd Hre x'. subst x'. unfold step.
  rewrite crashed_commit.
  destruct (commit_frame (app x) (dispatch (FileRead fn fs (Some doc)) x))
    as (-> & -> & _ & _ & _ & -> & _).
  unfold dispatch. rewrite onload_not_null by exact Hd.
  split.
  { cbn [crashed app metadata setAnalysis setMetadata setAnimationData
         allocate with_app]. rewrite Hcr. unfold render_throws. simpl.
    now rewrite Hre. }
  repeat split. intros Hk. cbn [app metadata setAnalysis setMetadata with_app].
  unfold copied_metadata.
  repeat match goal with
    | H : Forall _ (_ :: _) |- _ => inversion_clear H
    end.
  repeat match goal with
    | H : get_opt _ _ = Undefined |- _ => rewrite H; clear H
    end.
  reflexivity.
Qed.

(** ** The render session *)

Lemma fresh_document_changes_deps (x : World) (doc : json) (s : AppState) :
  Inv x -> is_document doc = true ->
  animationData s = {| object_id := S (allocated x); content := doc |} ->
  deps_changed (app x) s = true.
Proof.
  intros I Hd Ea. unfold deps_changed, Object_is. rewrite Ea. simpl.
  pose proof (inv_fresh x I) as Hf.
  assert (E : Nat.eqb (object_id (animationData (app x))) (S (allocated x))
              = false) by (apply Nat.eqb_neq; lia).
  destruct doc; try discriminate;
    destruct (content (animationData (app x))); simpl; rewrite ?E;
    reflexivity.
Qed.

(** The load of a document rebuilds the session: the instance the ref holds
    is destroyed, then the next instance is created on the new document. *)
Lemma load_rebuilds (x : World) (fn : string) (fs : num) (doc : json) :
  Inv x -> crashed x = false -> is_document doc = true ->
  renderable (copied_metadata fn fs doc) = true ->
  let n := creates (lottie x) in
  let st := settings (app x) in
  lottie (step x (FileRead fn fs (Some doc))) =
    (lottie x ++ teardown (animationInstanceRef x)
       ++ teardown (animationInstanceRef x)
       ++ [loadAnimation n (renderer st) (loop st) true
             {| object_id := S (allocated x); content := doc |};
           setSpeed n (speed st)])%list
  /\ animationInstanceRef (step x (FileRead fn fs (Some doc))) = Some n
  /\ crashed (step x (FileRead fn fs (Some doc))) = false.
Proof.
  intros I Hcr Hd Hre n st. unfold step, dispatch.
  assert (Hnn : doc <> JNull) by (destruct doc; discriminate).
  rewrite (onload_not_null fn fs doc x Hnn).
  match goal with |- context [commit _ ?y] => set (y0 := y) end.
  assert (Hch : deps_changed (app x) (app y0) = true).
  { apply (fresh_document_changes_deps x doc); auto. }
  assert (Hsh : controls_shown y0 = true).
  { unfold controls_shown; simpl. rewrite Hcr.
    destruct doc; auto; discriminate. }
  assert (Hrt : render_throws (app y0) = false).
  { unfold render_throws; simpl. now rewrite Hre. }
  destruct (commit_rebuild (app x) y0 Hrt Hch Hsh) as (-> & -> & _ & ->).
  repeat split.
Qed.

Lemma creates_load (x : World) (fn : string) (fs : num) (doc : json) :
  Inv x -> crashed x = false -> is_document doc = true ->
  renderable (copied_metadata fn fs doc) = true ->
  creates (lottie (step x (FileRead fn fs (Some doc))))
  = S (creates (lottie x)).
Proof.
  intros I Hcr Hd Hre.
  destruct (load_rebuilds x fn fs doc I Hcr Hd Hre) as (-> & _).
  rewrite !creates_app, !creates_teardown. unfold creates; simpl. lia.
Qed.

(** After a rebuild the ref holds the one live instance. *)
Lemma live_of_ref (x : World) (i : nat) :
  Inv x -> controls_shown x = true ->
  animationInstanceRef x = Some i -> live (lottie x) = [i].
Proof.
  intros I Hs Hr. pose proof (inv_session x I) as H.
  unfold session_ok in H. rewrite Hs in H.
  destruct H as (j & Hj & Hl). congruence.
Qed.

Lemma controls_shown_load (x : World) (fn : string) (fs : num) (doc : json) :
  crashed x = false -> is_document doc = true ->
  renderable (copied_metadata fn fs doc) = true ->
  controls_shown (step x (FileRead fn fs (Some doc))) = true.
Proof.
  intros Hcr Hd Hre. unfold step.
  assert (Hnn : doc <> JNull) by (destruct doc; discriminate).
  rewrite controls_shown_commit;
    unfold dispatch; rewrite (onload_not_null fn fs doc x Hnn).
  - unfold controls_shown; simpl. rewrite Hcr.
    destruct doc; auto; discriminate.
  - unfold render_throws; simpl. now rewrite Hre.
Qed.

Lemma consecutive_loads_from (es : list event) : forall x : World,
  Inv x -> crashed x = false -> forallb rendered_load es = true ->
  creates (lottie (run x es)) = creates (lottie x) + List.length es
  /\ Inv (run x es)
  /\ (es <> [] ->
      live (lottie (run x es)) = [creates (lottie x) + List.length es - 1]).
Proof.
  induction es as [| e es IH]; intros x I Hcr Hes; simpl.
  - split; [lia |]. split; [exact I |]. congruence.
  - simpl in Hes. apply andb_true_iff in Hes as [He Hes].
    destruct e as [fn fs [doc |] | | | | | | | | |]; try discriminate.
    simpl in He. apply andb_true_iff in He as [He Hre].
    pose proof (step_Inv x (FileRead fn fs (Some doc)) I) as I1.
    destruct (load_rebuilds x fn fs doc I Hcr He Hre) as (_ & Hr & Hcr1).
    destruct (IH _ I1 Hcr1 Hes) as (Hc & I2 & Hl).
    rewrite creates_load in Hc, Hl by assumption.
    split; [rewrite Hc; lia |]. split; [exact I2 |]. intros _.
    destruct es as [| e' es'].
    + simpl.
      rewrite (live_of_ref _ _ I1
                 (controls_shown_load x fn fs doc Hcr He Hre) Hr).
      f_equal. lia.
    + rewrite Hl by discriminate. f_equal. simpl. lia.
Qed.

(** C1, amended. After N consecutive loads of documents by the mounted
    component, each one a document whose metadata the card can render, the
    engine has received exactly N [loadAnimation] calls; at no point of the
    call log are two instances live; every [loadAnimation] is made when no
    instance is live, the instance before it having been destroyed; after
    N >= 1 loads the instance created last is the only live one, the N-1
    instances before it having been destroyed; and the first load destroys
    nothing. *)
Theorem consecutive_loads (es : list event) :
  forallb rendered_load es = true ->
  let t := lottie (run mounted es) in
  creates t = List.length es
  /\ never_two_live t
  /\ (forall k i r l a d,
        nth_error t k = Some (loadAnimation i r l a d) ->
        live (firstn k t) = [])
  /\ live t = match es with
              | [] => []
              | _ :: _ => [List.length es - 1]
              end
  /\ destroys (lottie (run mounted (firstn 1 es))) = 0.
Proof.
  intros Hes t.
  destruct (consecutive_loads_from es mounted mounted_Inv eq_refl Hes)
    as (Hc & I & Hl).
  fold t in Hc, Hl. simpl in Hc, Hl.
  split; [exact Hc |]. split; [apply (inv_one _ I) |]. split; [| split].
  - intros k i r l a d Hk.
    apply (never_two_live_create t k i r l a d (inv_one _ I) Hk).
  - destruct es as [| e es']; [reflexivity |]. apply Hl. discriminate.
  - destruct es as [| e es']; [reflexivity |].
    simpl in Hes. apply andb_true_iff in Hes as [He _].
    destruct e as [fn fs [doc |] | | | | | | | | |]; try discriminate.
    simpl in He. apply andb_true_iff in He as [He Hre].
    cbn [firstn run fold_left].
    destruct (load_rebuilds mounted fn fs doc mounted_Inv eq_refl He Hre)
      as (-> & _).
    reflexivity.
Qed.

(** ** Settings *)

Lemma num_eqb_neq (a b : num) : a <> b -> num_eqb a b = false.
Proof. unfold num_eqb. destruct (num_eq_dec a b); congruence. Qed.

Lemma Renderer_eqb_neq (a b : Renderer) : a <> b -> Renderer_eqb a b = false.
Proof. destruct a, b; simpl; congruence. Qed.

Lemma deps_changed_settings (s s' : AppState) :
  same_initAnimation (settings s) (settings s') = false ->
  deps_changed s s' = true.
Proof.
  intros E. unfold deps_changed. rewrite E. now rewrite andb_false_r.
Qed.

(** C2, what the code does. While a session is active (the ref holds the
    live instance i), a new speed reaches [setSpeed] of the live instance
    and then, [settings.speed] being a dependency of [initAnimation], the
    commit destroys instance i and creates the next instance, exactly as a
    change of the loop setting or of the renderer does. *)
Theorem settings_change_rebuilds (x : World) :
  reachable x -> controls_shown x = true ->
  exists i,
    animationInstanceRef x = Some i /\ live (lottie x) = [i] /\
    let n := creates (lottie x) in
    let st := settings (app x) in
    let d := animationData (app x) in
    (forall s, s <> speed st ->
       lottie (step x (SpeedInput s)) =
         (lottie x ++ [setSpeed i s; destroy i; destroy i;
                       loadAnimation n (renderer st) (loop st) true d;
                       setSpeed n s])%list)
    /\ lottie (step x ClickLoop) =
         (lottie x ++ [destroy i; destroy i;
                       loadAnimation n (renderer st) (negb (loop st)) true d;
                       setSpeed n (speed st)])%list
    /\ (forall r, r <> renderer st ->
          lottie (step x (SelectRenderer r)) =
            (lottie x ++ [destroy i; destroy i;
                          loadAnimation n r (loop st) true d;
                          setSpeed n (speed st)])%list).
Proof.
  intros Hx Hs. pose proof (reachable_Inv x Hx) as I.
  pose proof (inv_session x I) as Hi. unfold session_ok in Hi.
  rewrite Hs in Hi. destruct Hi as (i & Hr & Hl).
  exists i. split; [exact Hr |]. split; [exact Hl |].
  assert (Hcr : crashed x = false).
  { unfold controls_shown in Hs. now destruct (crashed x). }
  pose proof (inv_renders x I Hcr) as Hrt.
  intros n st d. unfold step, dispatch, when. rewrite Hs.
  split; [| split].
  - intros s Hne.
    rewrite (num_eqb_neq s (speed (settings (app x)))) by exact Hne.
    simpl negb. cbv iota.
    match goal with |- context [commit _ ?y] => set (y0 := y) end.
    assert (Hch : deps_changed (app x) (app y0) = true).
    { apply deps_changed_settings. unfold same_initAnimation, y0,
        handleSpeedChange. simpl. rewrite Hr. simpl.
      rewrite (num_eqb_neq (speed (settings (app x))) s)
        by (intros E; apply Hne; symmetry; exact E).
      now rewrite andb_false_r. }
    assert (Hsh : controls_shown y0 = true).
    { unfold y0, handleSpeedChange; simpl. rewrite Hr. exact Hs. }
    assert (Hrt0 : render_throws (app y0) = false).
    { unfold y0, handleSpeedChange; simpl. now rewrite Hr. }
    destruct (commit_rebuild (app x) y0 Hrt0 Hch Hsh) as (-> & _).
    unfold y0, handleSpeedChange; simpl. rewrite Hr; simpl.
    rewrite creates_snoc; simpl. rewrite Nat.add_0_r.
    rewrite <- app_assoc. now rewrite Hr.
  - match goal with |- context [commit _ ?y] => set (y0 := y) end.
    assert (Hch : deps_changed (app x) (app y0) = true).
    { apply deps_changed_settings. unfold same_initAnimation, y0. simpl.
      now destruct (loop (settings (app x))). }
    destruct (commit_rebuild (app x) y0 Hrt Hch Hs) as (-> & _).
    unfold y0; simpl. now rewrite Hr.
  - intros r Hne.
    match goal with |- context [commit _ ?y] => set (y0 := y) end.
    assert (Hch : deps_changed (app x) (app y0) = true).
    { apply deps_changed_settings. unfold same_initAnimation, y0. simpl.
      rewrite (Renderer_eqb_neq (renderer (settings (app x))) r)
        by (intros E; apply Hne; symmetry; exact E).
      now rewrite andb_false_r. }
    destruct (commit_rebuild (app x) y0 Hrt Hch Hs) as (-> & _).
    unfold y0; simpl. now rewrite Hr.
Qed.

(** ** Transport *)

(** C9. With no render session (no instance is live) the pause/resume, stop
    and restart controls do nothing at all: no call reaches the engine and
    the whole state is as before.  With a session, the ref holds the live
    instance and the one call made goes to it.  The handlers themselves
    return at once when the ref is empty. *)
Theorem transport_needs_session (x : World) :
  reachable x ->
  (live (lottie x) = [] ->
     step x ClickPlayPause = x /\ step x ClickStop = x
     /\ step x ClickRestart = x)
  /\ (forall i, live (lottie x) = [i] ->
        animationInstanceRef x = Some i
        /\ lottie (step x ClickPlayPause) =
             (lottie x ++ [if isPlaying (app x) then pause i else play i])%list
        /\ lottie (step x ClickStop) = (lottie x ++ [stop i])%list
        /\ lottie (step x ClickRestart) =
             (lottie x ++ [goToAndPlay i (num_of_nat 0)])%list)
  /\ (animationInstanceRef x = None ->
        handlePlayPause x = x /\ handleStop x = x /\ handleRestart x = x).
Proof.
  intros Hx. pose proof (reachable_Inv x Hx) as I.
  pose proof (inv_session x I) as Hi. unfold session_ok in Hi.
  split; [| split].
  - intros Hl. destruct (controls_shown x) eqn:Hs.
    + destruct Hi as (i & _ & Hi). congruence.
    + unfold step, dispatch, when. rewrite Hs.
      rewrite (commit_same x I). auto.
  - intros i Hl. destruct (controls_shown x) eqn:Hs; [| congruence].
    destruct Hi as (j & Hr & Hj).
    assert (j = i) by congruence. subst j.
    split; [exact Hr |].
    unfold step, dispatch, when. rewrite Hs.
    unfold handlePlayPause, handleStop, handleRestart. rewrite Hr.
    assert (Hcr : crashed x = false).
    { unfold controls_shown in Hs. now destruct (crashed x). }
    pose proof (inv_renders x I Hcr) as Hrt.
    repeat split; rewrite commit_quiet
      by (try apply deps_unchanged; destruct (isPlaying (app x));
          assumption || reflexivity);
      simpl; destruct (isPlaying (app x)); reflexivity.
  - intros Hr. unfold handlePlayPause, handleStop, handleRestart.
    now rewrite Hr.
Qed.

(** ** Analysis *)

(** While a request is pending the button is disabled. *)
Lemma pending_disables (x : World) :
  Inv x -> 0 < in_flight x -> analyze_enabled x = false.
Proof.
  intros I Hp. pose proof (inv_flight x I) as Hf. unfold analyze_enabled.
  destruct (isAnalyzing (app x)); [| lia].
  now destruct (metadata (app x)).
Qed.

Lemma pending_click_ignored (x : World) (thrown : option string) :
  reachable x -> 0 < in_flight x -> step x (ClickAnalyze thrown) = x.
Proof.
  intros Hx Hp. pose proof (reachable_Inv x Hx) as I.
  unfold step, dispatch, when. rewrite (pending_disables x I Hp).
  rewrite andb_false_r. now apply commit_same.
Qed.

Lemma click_sends (x : World) :
  reachable x -> analyze_enabled x = true -> controls_shown x = true ->
  step x (ClickAnalyze None)
  = send (analysis_request (app x)) (setIsAnalyzing true x).
Proof.
  intros Hx He Hs. pose proof (reachable_Inv x Hx) as I.
  assert (Hcr : crashed x = false).
  { unfold controls_shown in Hs. now destruct (crashed x). }
  unfold step, dispatch, when, handleAnalyze. rewrite He, Hcr.
  unfold controls_shown in Hs. rewrite Hcr in Hs. simpl in Hs.
  rewrite Hs. simpl.
  apply commit_id.
  - simpl. apply (inv_renders x I).
  - now apply deps_unchanged.
  - simpl. apply (inv_container x I).
Qed.

(** C5. At most one request is in flight.  A click on the analysis button
    while a request is pending changes nothing and sends nothing; so two
    clicks in succession send exactly one request, and the second is
    dropped, not queued. *)
Theorem second_trigger_is_ignored (x : World) :
  reachable x ->
  in_flight x <= 1
  /\ (0 < in_flight x -> forall thrown, step x (ClickAnalyze thrown) = x)
  /\ (analyze_enabled x = true -> controls_shown x = true ->
      forall thrown,
        let x1 := step x (ClickAnalyze None) in
        let x2 := step x1 (ClickAnalyze thrown) in
        outbox x1 = (outbox x ++ [analysis_request (app x)])%list
        /\ in_flight x1 = 1
        /\ x2 = x1).
Proof.
  intros Hx. pose proof (reachable_Inv x Hx) as I.
  split; [| split].
  - rewrite (inv_flight x I). destruct (isAnalyzing (app x)); lia.
  - intros Hp thrown. now apply pending_click_ignored.
  - intros He Hs thrown x1 x2.
    assert (E1 : x1 = send (analysis_request (app x))
                        (setIsAnalyzing true x))
      by (now apply click_sends).
    assert (Hfl : in_flight x1 = 1).
    { pose proof (inv_flight x I) as Hf. unfold analyze_enabled in He.
      rewrite E1. simpl. rewrite Hf.
      destruct (metadata (app x)); [| discriminate].
      now destruct (isAnalyzing (app x)). }
    split; [now rewrite E1 |]. split; [exact Hfl |].
    apply pending_click_ignored; [now constructor | lia].
Qed.




(** C7, amended. When the request succeeds with a text that is not empty,
    that text is stored as the analysis, unchanged; an empty or absent text
    is replaced by the fixed message.  The pending flag is cleared. *)
Theorem analysis_success_stores_text (x : World) :
  0 < in_flight x ->
  (forall s, s <> "" ->
     analysis (app (step x (AnalysisSettled (Fulfilled (Some s))))) = Some s)
  /\ analysis (app (step x (AnalysisSettled (Fulfilled (Some "")))))
     = Some analysis_empty
  /\ analysis (app (step x (AnalysisSettled (Fulfilled None))))
     = Some analysis_empty
  /\ (forall text,
        isAnalyzing (app (step x (AnalysisSettled (Fulfilled text))))
        = false).
Proof.
  intros Hp.
  assert (E : forall text,
    analysis (app (step x (AnalysisSettled (Fulfilled text))))
      = Some (text_or_default text)
    /\ isAnalyzing (app (step x (AnalysisSettled (Fulfilled text))))
       = false).
  { intros text. unfold step.
    destruct (commit_frame (app x)
                (dispatch (AnalysisSettled (Fulfilled text)) x))
      as (_ & _ & -> & -> & _).
    unfold dispatch, when.
    destruct (Nat.eqb_spec (in_flight x) 0) as [E | _]; [lia |].
    split; reflexivity. }
  repeat split; try apply E.
  intros s Hs. destruct (E (Some s)) as [-> _]. simpl.
  destruct (String.eqb_spec s ""); congruence.
Qed.

(** ** What every handler keeps *)

Lemma same_initAnimation_eq (a b : AnimationSettings) :
  same_initAnimation a b = true ->
  loop a = loop b /\ speed a = speed b /\ renderer a = renderer b.
Proof.
  unfold same_initAnimation. intros E.
  apply andb_true_iff in E as [E Er]. apply andb_true_iff in E as [El Es].
  apply Bool.eqb_prop in El. apply num_eqb_eq in Es.
  repeat split; auto. destruct (renderer a), (renderer b);
    simpl in Er; congruence.
Qed.

Lemma deps_unchanged_inv (s s' : AppState) :
  deps_changed s s' = false ->
  Object_is (animationData s) (animationData s') = true
  /\ loop (settings s) = loop (settings s')
  /\ speed (settings s) = speed (settings s')
  /\ renderer (settings s) = renderer (settings s').
Proof.
  unfold deps_changed. intros E.
  apply negb_false_iff, andb_true_iff in E as [Eo Es].
  split; [exact Eo |]. now apply same_initAnimation_eq.
Qed.

(** Two values [Object.is] equates hold the same content, unless they are
    one object. *)
Lemma Object_is_content (a b : any) :
  Object_is a b = true -> object_id a <> object_id b ->
  content a = content b.
Proof.
  unfold Object_is. intros E Hne.
  destruct (content a), (content b); simpl in E; try discriminate;
    try reflexivity;
    try (apply Nat.eqb_eq in E; contradiction).
  - apply Bool.eqb_prop in E. congruence.
  - apply num_eqb_eq in E. congruence.
  - apply String.eqb_eq in E. congruence.
Qed.

Lemma text_or_default_not_empty (text : option string) :
  text_or_default text <> "".
Proof.
  unfold text_or_default. destruct text as [s |]; [| discriminate].
  destruct (String.eqb_spec s ""); [discriminate | assumption].
Qed.

(** A handler leaves the viewport ref alone; the document it leaves is the
    one before or a newly parsed one. *)
Lemma dispatch_cells (e : event) (x : World) :
  containerRef (dispatch e x) = containerRef x
  /\ (animationData (app (dispatch e x)) = animationData (app x)
      \/ object_id (animationData (app (dispatch e x))) = S (allocated x)).
Proof.
  destruct x as [s r c t al co ob fl n cr].
  destruct e as [fn fs [doc |] | | | | sp | | rd | col | [err |] | [tx | err]];
    unfold dispatch, when, controls_shown, analyze_enabled, onload,
      handlePlayPause, handleStop, handleRestart, handleSpeedChange,
      handleAnalyze, handleAnalyze_resume, analysis_catch; simpl;
    repeat match goal with
      | |- context [match ?m with _ => _ end] => destruct m; simpl
      end;
    split; auto.
Qed.

(** The call a handler sends, when it is a [setSpeed], carries the speed
    the handler stored in the settings. *)
Lemma dispatch_call (e : event) (x : World) :
  lottie (dispatch e x) = lottie x
  \/ exists c, lottie (dispatch e x) = (lottie x ++ [c])%list
               /\ is_create c = false /\ is_destroy c = false
               /\ (forall j s, c = setSpeed j s ->
                     s = speed (settings (app (dispatch e x)))).
Proof.
  destruct x as [s r c t al co ob fl n cr].
  destruct e as [fn fs [doc |] | | | | sp | | rd | col | [err |] | [tx | err]];
    unfold dispatch, when, controls_shown, analyze_enabled, onload,
      handlePlayPause, handleStop, handleRestart, handleSpeedChange,
      handleAnalyze, handleAnalyze_resume, analysis_catch; simpl;
    repeat match goal with
      | |- context [match ?m with _ => _ end] => destruct m; simpl
      end;
    try (left; reflexivity);
    right; eexists; repeat split; intros j s0 E; try discriminate;
    now inversion E.
Qed.

(** No dependency changed: the step is the handler alone. *)
Lemma step_quiet (x : World) (e : event) :
  Inv x ->
  (crashed x = false -> render_throws (app (dispatch e x)) = false) ->
  deps_changed (app x) (app (dispatch e x)) = false ->
  step x e = dispatch e x
  /\ controls_shown (dispatch e x) = controls_shown x.
Proof.
  intros I Hr Hd. destruct (dispatch_mounted e x) as [Ecr Eco].
  assert (Hs : controls_shown (dispatch e x) = controls_shown x).
  { unfold controls_shown. rewrite Ecr. f_equal. symmetry.
    apply Object_is_truthy. now apply deps_unchanged_inv in Hd. }
  split; [| exact Hs]. unfold step. apply commit_id; [| exact Hd |].
  - now rewrite Ecr.
  - rewrite Eco, Hs. apply I.
Qed.

(** A handler that leaves the metadata leaves what is rendered. *)
Lemma renders_kept (x y : World) :
  Inv x -> metadata (app y) = metadata (app x) ->
  crashed x = false -> render_throws (app y) = false.
Proof.
  intros I Em Hcr. rewrite (render_throws_metadata _ _ Em). now apply I.
Qed.

Lemma last_create_app (t u : list call) :
  last_create (t ++ u)
  = fold_left (fun acc c => if is_create c then Some c else acc) u
              (last_create t).
Proof. unfold last_create. now rewrite fold_left_app. Qed.

Lemma last_speed_app (i : nat) (t u : list call) :
  last_speed i (t ++ u)
  = fold_left (fun acc c =>
                 match c with
                 | setSpeed j s => if Nat.eqb j i then Some s else acc
                 | _ => acc
                 end) u (last_speed i t).
Proof. unfold last_speed. now rewrite fold_left_app. Qed.

Lemma dispatch_current (e : event) (x : World) :
  Inv x -> session_current x ->
  deps_changed (app x) (app (dispatch e x)) = false ->
  session_current (dispatch e x).
Proof.
  intros I (i & d & Hr & Hc & Hd & Hsp) Hq.
  destruct (deps_unchanged_inv _ _ Hq) as (Ho & El & Es & Er).
  exists i, d. destruct (dispatch_log e x) as [Hr' _].
  rewrite Hr', <- El, <- Er, <- Es.
  split; [exact Hr |].
  assert (Hcont : content (animationData (app (dispatch e x)))
                  = content (animationData (app x))).
  { destruct (dispatch_cells e x) as [_ [-> | Hid]]; [reflexivity |].
    symmetry. apply Object_is_content; [exact Ho |].
    pose proof (inv_fresh x I). lia. }
  rewrite Hcont.
  destruct (dispatch_call e x) as [-> | (c & -> & Hcr & _ & Hs)].
  - auto.
  - rewrite last_create_app, last_speed_app. simpl. rewrite Hcr.
    split; [exact Hc |]. split; [exact Hd |].
    destruct c; auto. destruct (Nat.eqb inst i); auto.
    rewrite (Hs inst s eq_refl). now rewrite <- Es.
Qed.

Lemma commit_current (prev : AppState) (y : World) :
  render_throws (app y) = false ->
  deps_changed prev (app y) = true -> controls_shown y = true ->
  session_current (commit prev y).
Proof.
  intros Hrt Hd Hs.
  destruct (commit_rebuild prev y Hrt Hd Hs) as (Hl & Hr & _).
  destruct (commit_frame prev y) as (Ea & _ & _ & _ & Es & _).
  unfold session_current. rewrite Hl, Hr, Ea, Es.
  eexists _, _. split; [reflexivity |].
  rewrite last_create_app, last_speed_app.
  destruct (animationInstanceRef y); simpl; rewrite Nat.eqb_refl;
    repeat split.
Qed.

Lemma step_Sync (x : World) (e : event) :
  Inv x -> Sync x -> Sync (step x e).
Proof.
  intros I [Hse Hme Han].
  destruct (commit_frame (app x) (dispatch e x))
    as (Ea & Em & _ & En & _).
  constructor.
  - intros Hs. unfold step in *.
    assert (Hrt : render_throws (app (dispatch e x)) = false).
    { unfold controls_shown in Hs. rewrite crashed_commit in Hs.
      destruct (crashed (dispatch e x)); [discriminate |].
      now destruct (render_throws (app (dispatch e x))). }
    rewrite controls_shown_commit in Hs by exact Hrt.
    destruct (deps_changed (app x) (app (dispatch e x))) eqn:Hd.
    + now apply commit_current.
    + destruct (step_quiet x e I (fun _ => Hrt) Hd) as [E Hs'].
      unfold step in E.
      rewrite E. apply dispatch_current; auto. apply Hse. congruence.
  - unfold step. rewrite Ea, Em. clear Ea Em En Hse Han I.
    destruct x as [s r c t al co ob fl n cr]; simpl in *.
    destruct e as [fn fs [doc |] | | | | sp | | rd | col | [err |]
                  | [tx | err]];
      unfold dispatch, when, controls_shown, analyze_enabled, onload,
        handlePlayPause, handleStop, handleRestart, handleSpeedChange,
        handleAnalyze, handleAnalyze_resume, analysis_catch; simpl;
      repeat match goal with
        | |- context [match ?m with _ => _ end] =>
            let E := fresh "E" in destruct m eqn:E; simpl
        end; auto.
    + intros _. destruct doc; try discriminate;
        rewrite metadata_of_not_null in E by discriminate;
        injection E as <-; eauto.
    + destruct doc; try discriminate. congruence.
  - unfold step. rewrite En. clear Ea Em En Hse Hme I.
    destruct x as [s r c t al co ob fl n cr]; simpl in *.
    destruct e as [fn fs [doc |] | | | | sp | | rd | col | [err |]
                  | [tx | err]];
      unfold dispatch, when, controls_shown, analyze_enabled, onload,
        handlePlayPause, handleStop, handleRestart, handleSpeedChange,
        handleAnalyze, handleAnalyze_resume, analysis_catch; simpl;
      repeat match goal with
        | |- context [match ?m with _ => _ end] =>
            let E := fresh "E" in destruct m eqn:E; simpl
        end; auto; try discriminate.
    intros E'. injection E' as E'.
    now apply (text_or_default_not_empty tx).
Qed.

Lemma mounted_Sync : Sync mounted.
Proof.
  constructor; simpl; try discriminate. intros H. now elim H.
Qed.

Lemma reachable_Sync (x : World) : reachable x -> Sync x.
Proof.
  induction 1 as [| x e Hx IH]; [apply mounted_Sync |].
  apply step_Sync; [now apply reachable_Inv | exact IH].
Qed.

(** ** Invariants of every reachable state *)

(** X2. Whatever the events were, no two instances are ever live; the
    viewport ref is attached exactly while a truthy document is loaded;
    while it is, the ref holds the one live instance, and while it is not,
    no instance is live. *)
Theorem one_session_at_all_times (x : World) :
  reachable x ->
  never_two_live (lottie x)
  /\ containerRef x = controls_shown x
  /\ (controls_shown x = true ->
      exists i, animationInstanceRef x = Some i /\ live (lottie x) = [i])
  /\ (controls_shown x = false -> live (lottie x) = []).
Proof.
  intros Hx. pose proof (reachable_Inv x Hx) as I.
  pose proof (inv_session x I) as Hs. unfold session_ok in Hs.
  split; [apply I |]. split; [apply I |].
  split; intros E; now rewrite E in Hs.
Qed.

(** X5. While a document is shown, the instance the ref holds is the one
    created last; it was created with the renderer and the loop setting the
    settings hold now, with autoplay, on the content of the loaded document;
    and the last speed it was given is the speed of the settings. *)
Theorem session_follows_settings (x : World) :
  reachable x -> controls_shown x = true ->
  exists i d,
    animationInstanceRef x = Some i
    /\ last_create (lottie x)
       = Some (loadAnimation i (renderer (settings (app x)))
                 (loop (settings (app x))) true d)
    /\ content d = content (animationData (app x))
    /\ last_speed i (lottie x) = Some (speed (settings (app x))).
Proof.
  intros Hx Hs. exact (sync_session x (reachable_Sync x Hx) Hs).
Qed.

(** X6. Unless the document is [null], the metadata is the one derived from
    the document that is loaded: the two are never out of step. *)
Theorem metadata_follows_document (x : World) :
  reachable x ->
  content (animationData (app x)) <> JNull ->
  exists fn fs,
    metadata (app x)
    = Some (copied_metadata fn fs (content (animationData (app x)))).
Proof.
  intros Hx Hd. exact (sync_metadata x (reachable_Sync x Hx) Hd).
Qed.

(** X10. The stored analysis is never the empty string, so the analysis
    panel, rendered by [analysis && ...], shows every stored analysis. *)
Theorem analysis_panel_shows_stored (x : World) :
  reachable x -> analysis_panel (app x) = analysis (app x).
Proof.
  intros Hx. pose proof (sync_analysis x (reachable_Sync x Hx)) as Ha.
  unfold analysis_panel. destruct (analysis (app x)) as [a |]; auto.
  destruct (String.eqb_spec a ""); congruence.
Qed.

(** X15. The pending flag is set exactly while a request is in flight: the
    spinner is never stuck and never missing. *)
Theorem pending_flag_tracks_request (x : World) :
  reachable x ->
  (isAnalyzing (app x) = true <-> in_flight x = 1)
  /\ (isAnalyzing (app x) = false <-> in_flight x = 0).
Proof.
  intros Hx. pose proof (inv_flight x (reachable_Inv x Hx)) as Hf.
  destruct (isAnalyzing (app x)); rewrite Hf; repeat split;
    congruence.
Qed.

(** ** Settings that do not rebuild *)

(** X1. The background colour is cosmetic: picking a colour stores it and
    changes nothing else; the engine receives no call and the session
    stays. *)
Theorem background_is_cosmetic (x : World) (c : string) :
  reachable x -> controls_shown x = true ->
  let x' := step x (ColorInput c) in
  backgroundColor (settings (app x')) = c
  /\ lottie x' = lottie x
  /\ animationInstanceRef x' = animationInstanceRef x
  /\ loop (settings (app x')) = loop (settings (app x))
  /\ speed (settings (app x')) = speed (settings (app x))
  /\ renderer (settings (app x')) = renderer (settings (app x))
  /\ animationData (app x') = animationData (app x)
  /\ metadata (app x') = metadata (app x)
  /\ isPlaying (app x') = isPlaying (app x)
  /\ analysis (app x') = analysis (app x).
Proof.
  intros Hx Hs x'. pose proof (reachable_Inv x Hx) as I.
  assert (Hd : deps_changed (app x) (app (dispatch (ColorInput c) x))
               = false).
  { unfold dispatch, when. rewrite Hs. unfold deps_changed,
      same_initAnimation; simpl.
    now rewrite Object_is_refl, Bool.eqb_reflx, num_eqb_refl,
      Renderer_eqb_refl. }
  assert (Hrt : crashed x = false ->
                render_throws (app (dispatch (ColorInput c) x)) = false).
  { apply (renders_kept x _ I). unfold dispatch, when. now rewrite Hs. }
  destruct (step_quiet x (ColorInput c) I Hrt Hd) as [E _].
  subst x'. rewrite E. unfold dispatch, when. rewrite Hs.
  repeat split.
Qed.


(** ** Transport controls in sequence *)

Lemma session_of_live (x : World) (i : nat) :
  Inv x -> live (lottie x) = [i] ->
  controls_shown x = true /\ animationInstanceRef x = Some i.
Proof.
  intros I Hl. pose proof (inv_session x I) as Hi. unfold session_ok in Hi.
  destruct (controls_shown x); [| congruence].
  destruct Hi as (j & Hr & Hj). split; congruence.
Qed.

Lemma step_playpause (x : World) (i : nat) :
  Inv x -> controls_shown x = true -> animationInstanceRef x = Some i ->
  step x ClickPlayPause
  = setIsPlaying (negb (isPlaying (app x)))
      (emit (if isPlaying (app x) then pause i else play i) x).
Proof.
  intros I Hs Hr.
  assert (E : dispatch ClickPlayPause x
              = setIsPlaying (negb (isPlaying (app x)))
                  (emit (if isPlaying (app x) then pause i else play i) x)).
  { unfold dispatch, when, handlePlayPause. rewrite Hs, Hr.
    now destruct (isPlaying (app x)). }
  destruct (step_quiet x ClickPlayPause I) as [-> _]; [| | exact E].
  - apply (renders_kept x _ I). now rewrite E.
  - rewrite E. now apply deps_unchanged.
Qed.

Lemma step_stop (x : World) (i : nat) :
  Inv x -> controls_shown x = true -> animationInstanceRef x = Some i ->
  step x ClickStop = setIsPlaying false (emit (stop i) x).
Proof.
  intros I Hs Hr.
  assert (E : dispatch ClickStop x = setIsPlaying false (emit (stop i) x)).
  { unfold dispatch, when, handleStop. now rewrite Hs, Hr. }
  destruct (step_quiet x ClickStop I) as [-> _]; [| | exact E].
  - apply (renders_kept x _ I). now rewrite E.
  - rewrite E. now apply deps_unchanged.
Qed.

Lemma step_restart (x : World) (i : nat) :
  Inv x -> controls_shown x = true -> animationInstanceRef x = Some i ->
  step x ClickRestart = emit (goToAndPlay i (num_of_nat 0)) x.
Proof.
  intros I Hs Hr.
  assert (E : dispatch ClickRestart x = emit (goToAndPlay i (num_of_nat 0)) x).
  { unfold dispatch, when, handleRestart. now rewrite Hs, Hr. }
  destruct (step_quiet x ClickRestart I) as [-> _]; [| | exact E].
  - apply (renders_kept x _ I). now rewrite E.
  - rewrite E. now apply deps_unchanged.
Qed.

(** X3. Two clicks on play/pause bring every state cell back: the live
    instance receives [pause] then [play] when the animation was playing,
    [play] then [pause] when it was not, and no other call. *)
Theorem play_pause_twice_restores (x : World) (i : nat) :
  reachable x -> live (lottie x) = [i] ->
  let x2 := step (step x ClickPlayPause) ClickPlayPause in
  app x2 = app x
  /\ lottie x2
     = (lottie x ++ (if isPlaying (app x) then [pause i; play i]
                     else [play i; pause i]))%list.
Proof.
  intros Hx Hl x2. pose proof (reachable_Inv x Hx) as I.
  destruct (session_of_live x i I Hl) as [Hs Hr].
  subst x2. rewrite (step_playpause x i I Hs Hr).
  rewrite (step_playpause _ i); try assumption.
  - destruct x as [[d m p g a st] rf c t al co ob fl n cr]; simpl.
    rewrite negb_involutive, <- app_assoc.
    split; [reflexivity |]. now destruct p.
  - rewrite <- (step_playpause x i I Hs Hr). now apply step_Inv.
Qed.

(** X4. Restart sends [goToAndPlay(0)] to the live instance and changes no
    state cell: after Stop and Restart the play flag still says stopped, so
    the next click on play/pause sends [play], not [pause]. *)
Theorem restart_leaves_play_flag (x : World) (i : nat) :
  reachable x -> live (lottie x) = [i] ->
  step x ClickRestart = emit (goToAndPlay i (num_of_nat 0)) x
  /\ let x2 := step (step x ClickStop) ClickRestart in
     isPlaying (app x2) = false
     /\ lottie (step x2 ClickPlayPause)
        = (lottie x ++ [stop i; goToAndPlay i (num_of_nat 0); play i])%list
     /\ isPlaying (app (step x2 ClickPlayPause)) = true.
Proof.
  intros Hx Hl. pose proof (reachable_Inv x Hx) as I.
  destruct (session_of_live x i I Hl) as [Hs Hr].
  split; [now apply step_restart |]. intros x2. subst x2.
  assert (I1 : Inv (step x ClickStop)) by now apply step_Inv.
  rewrite (step_stop x i I Hs Hr) in *.
  assert (I2 : Inv (step (setIsPlaying false (emit (stop i) x))
                      ClickRestart)) by now apply step_Inv.
  rewrite (step_restart _ i I1 Hs Hr) in *.
  rewrite (step_playpause _ i I2 Hs Hr). simpl.
  rewrite <- !app_assoc. repeat split.
Qed.

(** ** Uploads *)

Lemma commit_rebuild_playing (prev : AppState) (y : World) :
  render_throws (app y) = false ->
  deps_changed prev (app y) = true -> controls_shown y = true ->
  isPlaying (app (commit prev y)) = true.
Proof.
  unfold controls_shown, commit, effect, cleanup, initAnimation.
  destruct y as [s r c t al co ob fl n0 cr]; simpl.
  intros -> -> Htr. destruct cr; [discriminate |]. simpl in Htr.
  destruct r as [i |]; simpl; rewrite Htr; reflexivity.
Qed.

(** X17. Whenever a step creates an instance, the play flag is set: a
    rebuilt session autoplays and the play/pause button shows Pause. *)
Theorem rebuild_autoplays (x : World) (e : event) :
  reachable x ->
  creates (lottie (step x e)) <> creates (lottie x) ->
  isPlaying (app (step x e)) = true
  /\ creates (lottie (step x e)) = S (creates (lottie x))
  /\ animationInstanceRef (step x e) = Some (creates (lottie x)).
Proof.
  intros Hx Hc. pose proof (reachable_Inv x Hx) as I.
  assert (Hq : creates (lottie (dispatch e x)) = creates (lottie x)).
  { destruct (dispatch_log e x) as [_ [-> | (c & -> & Hcr & _)]]; auto.
    rewrite creates_snoc, Hcr. lia. }
  unfold step in *.
  destruct (crashed (dispatch e x)) eqn:Hcr.
  { rewrite (commit_crashed _ _ Hcr) in Hc. congruence. }
  destruct (render_throws (app (dispatch e x))) eqn:Hrt.
  { rewrite (commit_crash _ _ Hcr Hrt) in Hc.
    destruct (crash_log (dispatch e x)) as (E & _).
    rewrite E, creates_app, creates_teardown in Hc. lia. }
  destruct (deps_changed (app x) (app (dispatch e x))) eqn:Hd.
  - destruct (controls_shown (dispatch e x)) eqn:Hs.
    + split; [now apply commit_rebuild_playing |].
      destruct (commit_rebuild _ _ Hrt Hd Hs) as (-> & -> & _).
      rewrite !creates_app, !creates_teardown, Hq.
      split; [unfold creates; simpl; lia | reflexivity].
    + destruct (commit_teardown _ _ Hcr Hrt Hd Hs) as (E & _).
      rewrite E, creates_app, creates_teardown in Hc. lia.
  - rewrite (commit_quiet _ _ Hcr Hrt Hd) in Hc. simpl in Hc. congruence.
Qed.

(** X9. Loading a document that renders over a session replaces it: the
    instance the ref holds receives [destroy] twice (from the cleanup and
    from [initAnimation]), then the next instance is created on the new
    document with the settings as they are, given their speed, and is the
    live one. *)
Theorem reload_replaces_session (x : World) (fn : string) (fs : num)
  (doc : json) (i : nat) :
  reachable x -> crashed x = false -> is_document doc = true ->
  renderable (copied_metadata fn fs doc) = true ->
  animationInstanceRef x = Some i ->
  let x' := step x (FileRead fn fs (Some doc)) in
  let n := creates (lottie x) in
  lottie x'
  = (lottie x ++
     [destroy i; destroy i;
      loadAnimation n (renderer (settings (app x))) (loop (settings (app x)))
        true {| object_id := S (allocated x); content := doc |};
      setSpeed n (speed (settings (app x)))])%list
  /\ animationInstanceRef x' = Some n
  /\ live (lottie x') = [n]
  /\ settings (app x') = settings (app x).
Proof.
  intros Hx Hcr Hd Hre Hr x' n. pose proof (reachable_Inv x Hx) as I.
  destruct (load_rebuilds x fn fs doc I Hcr Hd Hre) as (Hl & Hr' & _).
  rewrite Hr in Hl. subst x'. split; [exact Hl |]. split; [exact Hr' |].
  split.
  - apply live_of_ref; [now apply step_Inv | | exact Hr'].
    now apply controls_shown_load.
  - unfold step.
    destruct (commit_frame (app x)
                (dispatch (FileRead fn fs (Some doc)) x))
      as (_ & _ & _ & _ & -> & _).
    unfold dispatch.
    now rewrite onload_not_null by (destruct doc; discriminate).
Qed.

Lemma session_iff_shown (x : World) :
  Inv x ->
  (controls_shown x = true ->
   exists i, animationInstanceRef x = Some i /\ live (lottie x) = [i])
  /\ (controls_shown x = false -> live (lottie x) = []).
Proof.
  intros I. pose proof (inv_session x I) as Hs. unfold session_ok in Hs.
  split; intros E; now rewrite E in Hs.
Qed.

(** What the card renders after an upload that parses: the metadata of
    the document, or the metadata there was when the document is [null]. *)
Lemma render_after_upload (x : World) (fn : string) (fs : num) (doc : json) :
  Inv x -> crashed x = false ->
  (doc <> JNull -> renderable (copied_metadata fn fs doc) = true) ->
  render_throws (app (dispatch (FileRead fn fs (Some doc)) x)) = false.
Proof.
  intros I Hcr Hre. unfold dispatch.
  assert (Hn : doc = JNull \/ doc <> JNull).
  { destruct doc; (left; reflexivity) || (right; discriminate). }
  destruct Hn as [-> | Hn].
  - unfold onload; simpl. apply (inv_renders x I Hcr).
  - rewrite onload_not_null by exact Hn. unfold render_throws; simpl.
    now rewrite (Hre Hn).
Qed.

(** X8. After an upload that parses and whose metadata renders, a session
    exists exactly when the parsed value is truthy: for [0], [false], the
    empty string and [null] the viewport shows the placeholder and no
    instance is live, whatever was loaded before. *)
Theorem upload_session_iff_truthy (x : World) (fn : string) (fs : num)
  (doc : json) :
  reachable x -> crashed x = false ->
  (doc <> JNull -> renderable (copied_metadata fn fs doc) = true) ->
  let x' := step x (FileRead fn fs (Some doc)) in
  crashed x' = false
  /\ controls_shown x' = truthy doc
  /\ (truthy doc = true ->
      exists i, animationInstanceRef x' = Some i /\ live (lottie x') = [i])
  /\ (truthy doc = false -> live (lottie x') = []).
Proof.
  intros Hx Hcr Hre x'. pose proof (reachable_Inv x Hx) as I.
  pose proof (render_after_upload x fn fs doc I Hcr Hre) as Hrt.
  assert (Hc' : crashed x' = false).
  { subst x'. unfold step. rewrite crashed_commit, Hrt.
    destruct (dispatch_mounted (FileRead fn fs (Some doc)) x) as [-> _].
    now rewrite Hcr. }
  assert (Hs : controls_shown x' = truthy doc).
  { subst x'. unfold step. rewrite controls_shown_commit by exact Hrt.
    unfold controls_shown.
    destruct (dispatch_mounted (FileRead fn fs (Some doc)) x) as [-> _].
    rewrite Hcr. unfold dispatch, onload.
    now destruct (metadata_of fn fs doc). }
  assert (I' : Inv x') by now apply step_Inv.
  destruct (session_iff_shown x' I') as (Ht & Hf).
  rewrite Hs in Ht, Hf. auto.
Qed.

(** X18. A document whose metadata the card cannot render (its [fr] is an
    object, say) takes the page down: the handler stores it without an
    alert, the render throws and React unmounts the tree; the instance the
    ref holds is destroyed once, by the cleanup, no instance is created and
    none is live, and no control is shown afterwards. *)
Theorem unrenderable_upload_unmounts (x : World) (fn : string) (fs : num)
  (doc : json) :
  reachable x -> crashed x = false -> doc <> JNull ->
  renderable (copied_metadata fn fs doc) = false ->
  let x' := step x (FileRead fn fs (Some doc)) in
  crashed x' = true
  /\ alerts x' = alerts x
  /\ lottie x' = (lottie x ++ teardown (animationInstanceRef x))%list
  /\ live (lottie x') = []
  /\ controls_shown x' = false
  /\ forall e, e = ClickPlayPause \/ e = ClickStop \/ e = ClickRestart ->
       step x' e = x'.
Proof.
  intros Hx Hcr Hd Hre x'. pose proof (reachable_Inv x Hx) as I.
  assert (I' : Inv x') by now apply step_Inv.
  assert (E : x' = crash (onload fn fs (Some doc) x)).
  { subst x'. unfold step, dispatch. apply commit_crash.
    - rewrite onload_not_null by exact Hd. exact Hcr.
    - rewrite onload_not_null by exact Hd. unfold render_throws; simpl.
      now rewrite Hre. }
  assert (Hc' : crashed x' = true).
  { rewrite E. apply crash_log. }
  assert (Hs : controls_shown x' = false).
  { unfold controls_shown. now rewrite Hc'. }
  split; [exact Hc' |]. split.
  { rewrite E. rewrite onload_not_null by exact Hd. unfold crash, cleanup.
    simpl. now destruct (animationInstanceRef x). }
  split.
  { rewrite E. destruct (crash_log (onload fn fs (Some doc) x)) as (-> & _).
    now rewrite onload_not_null by exact Hd. }
  split; [now apply (session_iff_shown x' I') |].
  split; [exact Hs |].
  intros e [-> | [-> | ->]]; unfold step, dispatch, when; rewrite Hs;
    now apply commit_same.
Qed.

(** X7. The text [null] parses, so the handler stores it as the document
    before the object literal throws: the alert is raised and the document
    is gone, while the metadata and the analysis of the document before
    stay; no instance is live afterwards. *)
Theorem null_upload_clears_document (x : World) (fn : string) (fs : num) :
  reachable x ->
  let x' := step x (FileRead fn fs (Some JNull)) in
  alerts x' = (alerts x ++ [parse_failure])%list
  /\ content (animationData (app x')) = JNull
  /\ metadata (app x') = metadata (app x)
  /\ analysis (app x') = analysis (app x)
  /\ controls_shown x' = false
  /\ live (lottie x') = [].
Proof.
  intros Hx x'.
  assert (I' : Inv x') by (apply reachable_Inv; now constructor).
  assert (Hs : controls_shown x' = false).
  { subst x'. unfold step, controls_shown.
    destruct (commit_frame (app x)
                (dispatch (FileRead fn fs (Some JNull)) x)) as (-> & _).
    apply andb_false_r. }
  destruct (session_iff_shown x' I') as (_ & Hf).
  subst x'. unfold step in *.
  destruct (commit_frame (app x) (dispatch (FileRead fn fs (Some JNull)) x))
    as (-> & -> & _ & -> & _ & -> & _).
  repeat split; auto.
Qed.

(** ** Unmounting *)

(** X12. Unmounting releases the viewport: afterwards no instance is live,
    and at no point were two.  The ref is not cleared, and with an empty
    ref the cleanup makes no call. *)
Theorem unmount_releases_viewport (x : World) :
  reachable x ->
  live (lottie (unmount x)) = []
  /\ never_two_live (lottie (unmount x))
  /\ animationInstanceRef (unmount x) = animationInstanceRef x
  /\ (animationInstanceRef x = None -> unmount x = x).
Proof.
  intros Hx. pose proof (reachable_Inv x Hx) as I.
  pose proof (inv_session x I) as Hs. pose proof (inv_one x I) as H1.
  unfold session_ok in Hs. unfold unmount, cleanup.
  assert (Hl : forall j,
            live (lottie x ++ [destroy j]) = []
            \/ animationInstanceRef x <> Some j).
  { intros j. rewrite live_snoc. simpl.
    destruct (controls_shown x).
    - destruct Hs as (i & Hr & ->). simpl.
      destruct (Nat.eqb_spec i j); [now left | right; congruence].
    - rewrite Hs. now left. }
  destruct (animationInstanceRef x) as [j |] eqn:Hr; simpl.
  - destruct (Hl j) as [E | E]; [| congruence].
    split; [exact E |]. split; [| split; [exact Hr | discriminate]].
    apply never_two_live_snoc; [exact H1 |]. rewrite E. simpl. lia.
  - assert (E : live (lottie x) = []).
    { destruct (controls_shown x); [| exact Hs].
      destruct Hs as (i & Hi & _). discriminate. }
    repeat split; auto.
Qed.

(** ** The analysis request *)

(** X13. The request is consistent with itself: while a document is shown,
    the frame rate named in the prompt is the one of the JSON summary, and
    the layer count named in the prompt is the summary's [layersCount], or
    0 where the summary has none. *)
Theorem request_agrees_with_metadata (x : World) :
  reachable x -> controls_shown x = true ->
  let r := analysis_request (app x) in
  prompt_fr r = summary_fr r
  /\ prompt_layers r
     = or_else (layersCount r) (Val (JNum (num_of_nat 0))).
Proof.
  intros Hx Hs r.
  assert (Hd : content (animationData (app x)) <> JNull).
  { unfold controls_shown in Hs. intros E. rewrite E in Hs.
    rewrite andb_false_r in Hs. discriminate. }
  destruct (sync_metadata x (reachable_Sync x Hx) Hd) as (fn & fs & Hm).
  subst r. unfold analysis_request. simpl. rewrite Hm. simpl.
  split; reflexivity.
Qed.

(** X14. Without a truthy document the analysis handler returns at once:
    the click sends nothing, sets no pending flag and changes nothing, even
    where the metadata card with its button is shown. *)
Theorem analyze_needs_document (x : World) (thrown : option string) :
  reachable x -> controls_shown x = false ->
  step x (ClickAnalyze thrown) = x.
Proof.
  intros Hx Hs. pose proof (reachable_Inv x Hx) as I.
  assert (E : dispatch (ClickAnalyze thrown) x = x).
  { unfold dispatch, when, handleAnalyze. unfold controls_shown in Hs.
    destruct (crashed x); simpl in *; [reflexivity |].
    rewrite Hs. simpl. now destruct (analyze_enabled x). }
  unfold step. rewrite E. now apply commit_same.
Qed.

Lemma settle_success (x : World) (text : option string) :
  0 < in_flight x ->
  analysis (app (step x (AnalysisSettled (Fulfilled text))))
  = Some (text_or_default text).
Proof.
  intros Hp. unfold step.
  destruct (commit_frame (app x)
              (dispatch (AnalysisSettled (Fulfilled text)) x))
    as (_ & _ & _ & -> & _).
  unfold dispatch, when.
  destruct (Nat.eqb_spec (in_flight x) 0) as [E | _]; [lia | reflexivity].
Qed.

(** X11. A load does not cancel a pending request: the load clears the
    analysis, the request stays in flight, and when it returns its text is
    stored although it describes the document before. *)
Theorem stale_analysis_lands_on_new_document (x : World) (fn : string)
  (fs : num) (doc : json) (s : string) :
  0 < in_flight x -> doc <> JNull -> s <> "" ->
  let x1 := step x (FileRead fn fs (Some doc)) in
  let x2 := step x1 (AnalysisSettled (Fulfilled (Some s))) in
  analysis (app x1) = None
  /\ in_flight x1 = in_flight x
  /\ analysis (app x2) = Some s
  /\ content (animationData (app x2)) = doc.
Proof.
  intros Hp Hd Hs x1 x2.
  assert (E1 : analysis (app x1) = None
               /\ in_flight x1 = in_flight x
               /\ content (animationData (app x1)) = doc).
  { subst x1. unfold step.
    destruct (commit_frame (app x)
                (dispatch (FileRead fn fs (Some doc)) x))
      as (-> & _ & _ & -> & _ & _ & _ & _ & -> & _).
    unfold dispatch. rewrite onload_not_null by exact Hd.
    repeat split. }
  destruct E1 as (Ea & Ef & Ec).
  split; [exact Ea |]. split; [exact Ef |]. split.
  - subst x2. rewrite settle_success by lia. simpl.
    destruct (String.eqb_spec s ""); congruence.
  - subst x2. unfold step at 1.
    destruct (commit_frame (app x1)
                (dispatch (AnalysisSettled (Fulfilled (Some s))) x1))
      as (-> & _).
    unfold dispatch, when.
    destruct (Nat.eqb (in_flight x1) 0); simpl; exact Ec.
Qed.

End LottieFlow.

(** * The scenarios, with integers for numbers *)

Lemma reachable_loaded : reachable (@loaded Z _).
Proof. apply reachable_run, reachable_mounted. Qed.

Lemma reachable_analyzing : reachable (@analyzing Z _).
Proof. apply reachable_run, reachable_mounted. Qed.

(** C1 as stated fails at N = 1: the first load creates the first instance
    and destroys nothing, there being nothing to destroy.  And a load is no
    create at all when the document's metadata cannot be rendered: the
    render throws before the effect runs. *)
Lemma loads_are_not_destroy_create_pairs :
  creates (lottie (run (@mounted Z _) [scenario_upload])) = 1
  /\ destroys (lottie (run (@mounted Z _) [scenario_upload])) = 0
  /\ creates (lottie (run (@mounted Z _)
                        [FileRead "fr.json" 9%Z
                           (Some (JObj [("fr", JObj [])]))])) = 0.
Proof. repeat split; vm_compute; reflexivity. Qed.

(** Three loads of the scenario document: three instances, the third one
    live. *)
Lemma consecutive_loads_witness :
  let es := [@scenario_upload Z _; scenario_upload; scenario_upload] in
  forallb rendered_load es = true
  /\ (let t := lottie (run mounted es) in
      creates t = 3
      /\ never_two_live t
      /\ (forall k i r l a d,
            nth_error t k = Some (loadAnimation i r l a d) ->
            live (firstn k t) = [])
      /\ live t = [2]
      /\ destroys (lottie (run mounted (firstn 1 es))) = 0).
Proof.
  split; [reflexivity |].
  exact (consecutive_loads
           [@scenario_upload Z _; scenario_upload; scenario_upload]
           eq_refl).
Defined.

(** C2 at the failing input: the scenario document is loaded and the speed
    slider moves from 1 to 2.  The live instance 0 receives [setSpeed 2] and
    is then destroyed, and instance 1 is created. *)
Lemma speed_change_rebuilds_witness :
  reachable (@loaded Z _) /\ controls_shown (@loaded Z _) = true
  /\ lottie (step (@loaded Z _) (SpeedInput 2%Z)) =
       (lottie (@loaded Z _) ++
        [setSpeed 0 2%Z; destroy 0; destroy 0;
         loadAnimation 1 svg true true
           {| object_id := 1; content := scenario_document |};
         setSpeed 1 2%Z])%list.
Proof.
  split; [exact reachable_loaded |]. split; [reflexivity |].
  destruct (settings_change_rebuilds (@loaded Z _) reachable_loaded eq_refl)
    as (i & Hr & _ & Hspeed & _).
  injection Hr as <-.
  exact (Hspeed 2%Z ltac:(discriminate)).
Defined.

(** The scenario of C3: three layers, 2048 bytes. *)
Lemma load_derives_metadata_witness :
  layer_count (@scenario_fields Z _) = Some 3
  /\ metadata (app (step mounted
       (FileRead "scenario.json" 2048%Z (Some scenario_document)))) =
     Some {| name := "scenario.json"; size := 2048%Z;
             fr := Val (JNum 30%Z); ip := Val (JNum 0%Z);
             op := Val (JNum 90%Z); w := Val (JNum 512%Z);
             h := Val (JNum 512%Z); layers := Val (JNum 3%Z) |}.
Proof.
  split; [reflexivity |].
  exact (load_derives_metadata mounted "scenario.json" 2048%Z
           scenario_fields 3 eq_refl).
Defined.

(** A malformed file after the scenario document. *)
Lemma malformed_upload_changes_nothing_witness :
  reachable (@loaded Z _)
  /\ step (@loaded Z _) (FileRead "broken.json" 17%Z None)
     = alert parse_failure loaded.
Proof.
  split; [exact reachable_loaded |].
  exact (malformed_upload_changes_nothing loaded "broken.json" 17%Z
           reachable_loaded).
Defined.

(** Two clicks on the analysis button with the scenario document loaded. *)
Lemma second_trigger_is_ignored_witness :
  reachable (@loaded Z _) /\ analyze_enabled (@loaded Z _) = true
  /\ controls_shown (@loaded Z _) = true
  /\ 0 < in_flight (@analyzing Z _)
  /\ List.length (outbox (step (@loaded Z _) (ClickAnalyze None))) = 1
  /\ step (step (@loaded Z _) (ClickAnalyze None)) (ClickAnalyze None)
     = step loaded (ClickAnalyze None)
  /\ step (@analyzing Z _) (ClickAnalyze None) = analyzing.
Proof.
  split; [exact reachable_loaded |]. split; [reflexivity |].
  split; [reflexivity |]. split; [vm_compute; lia |].
  destruct (second_trigger_is_ignored (@loaded Z _) reachable_loaded)
    as (_ & _ & Htwice).
  destruct (Htwice eq_refl eq_refl None) as (Hout & _ & Hsame).
  split; [now rewrite Hout |]. split; [exact Hsame |].
  destruct (second_trigger_is_ignored (@analyzing Z _) reachable_analyzing)
    as (_ & Hpending & _).
  apply Hpending. vm_compute; lia.
Defined.


(** C7 as stated fails for the empty text: it is not stored, the fixed
    message is. *)
Lemma empty_text_is_replaced :
  analysis (app (step (@analyzing Z _)
                   (AnalysisSettled (Fulfilled (Some "")))))
  = Some "Could not analyze the animation."
  /\ analysis (app (step (@analyzing Z _)
                      (AnalysisSettled (Fulfilled (Some "")))))
     <> Some "".
Proof. split; [vm_compute; reflexivity | vm_compute; discriminate]. Qed.

(** The pending request returns a text. *)
Lemma analysis_success_stores_text_witness :
  0 < in_flight (@analyzing Z _)
  /\ analysis (app (step (@analyzing Z _)
                      (AnalysisSettled (Fulfilled (Some "A spinner.")))))
     = Some "A spinner.".
Proof.
  assert (Hp : 0 < in_flight (@analyzing Z _)) by (vm_compute; lia).
  split; [exact Hp |].
  destruct (analysis_success_stores_text (@analyzing Z _) Hp) as (Hs & _).
  apply Hs. discriminate.
Defined.

(** A second load after an analysis was stored. *)
Lemma load_clears_analysis_witness :
  @scenario_document Z _ <> JNull
  /\ analysis (app (step
       (step (@analyzing Z _) (AnalysisSettled (Fulfilled (Some "A spinner."))))
       scenario_upload)) = None.
Proof.
  assert (Hd : @scenario_document Z _ <> JNull) by discriminate.
  split; [exact Hd |].
  exact (load_clears_analysis _ "scenario.json" 2048%Z scenario_document Hd).
Defined.

(** The transport controls before any load, and with the scenario document
    loaded and playing. *)
Lemma transport_needs_session_witness :
  reachable (@mounted Z _) /\ reachable (@loaded Z _)
  /\ step (@mounted Z _) ClickPlayPause = mounted
  /\ step (@mounted Z _) ClickStop = mounted
  /\ step (@mounted Z _) ClickRestart = mounted
  /\ lottie (step (@loaded Z _) ClickPlayPause)
     = (lottie (@loaded Z _) ++ [pause 0])%list
  /\ lottie (step (@loaded Z _) ClickStop)
     = (lottie (@loaded Z _) ++ [stop 0])%list.
Proof.
  split; [exact reachable_mounted |]. split; [exact reachable_loaded |].
  destruct (transport_needs_session (@mounted Z _) reachable_mounted)
    as (Hnone & _ & _).
  destruct (Hnone eq_refl) as (Hp & Hs & Hr).
  destruct (transport_needs_session (@loaded Z _) reachable_loaded)
    as (_ & Hlive & _).
  destruct (Hlive 0 eq_refl) as (_ & Hp' & Hs' & _).
  split; [exact Hp |]. split; [exact Hs |]. split; [exact Hr |].
  split; [exact Hp' | exact Hs'].
Defined.

(** C10 as stated fails for the JSON text [null]: it parses, and the handler
    raises the alert and sets no metadata.  It fails as well for the
    document whose [fr] is an object: the handler stores it, and the render
    of the metadata card throws, which unmounts the page. *)
Lemma null_and_unrenderable_are_not_accepted :
  alerts (step (@loaded Z _) (FileRead "null.json" 4%Z (Some JNull)))
  = [parse_failure]
  /\ alerts (@loaded Z _) = []
  /\ metadata (app (step (@loaded Z _)
                      (FileRead "null.json" 4%Z (Some JNull))))
     = metadata (app (@loaded Z _))
  /\ crashed (@loaded Z _) = false
  /\ crashed (step (@loaded Z _)
                (FileRead "fr.json" 9%Z (Some (JObj [("fr", JObj [])]))))
     = true.
Proof. repeat split; vm_compute; reflexivity. Qed.

(** The empty object is accepted. *)
Lemma upload_accepts_any_non_null_witness :
  crashed (@mounted Z _) = false
  /\ @JObj Z [] <> JNull
  /\ renderable (copied_metadata "empty.json" 2%Z (@JObj Z [])) = true
  /\ crashed (step (@mounted Z _)
                (FileRead "empty.json" 2%Z (Some (JObj [])))) = false
  /\ alerts (step (@mounted Z _) (FileRead "empty.json" 2%Z (Some (JObj []))))
     = []
  /\ metadata (app (step (@mounted Z _)
                      (FileRead "empty.json" 2%Z (Some (JObj [])))))
     = Some {| name := "empty.json"; size := 2%Z; fr := Undefined;
               ip := Undefined; op := Undefined; w := Undefined;
               h := Undefined; layers := Val (JNum 0%Z) |}.
Proof.
  assert (Hd : @JObj Z [] <> JNull) by discriminate.
  split; [reflexivity |]. split; [exact Hd |]. split; [reflexivity |].
  destruct (upload_accepts_any_non_null (@mounted Z _) "empty.json" 2%Z
              (JObj []) eq_refl Hd eq_refl) as (Hc & Ha & _ & _ & Hm).
  split; [exact Hc |]. split; [exact Ha |]. apply Hm.
  repeat constructor.
Defined.

(** * The further properties, on the scenario *)

Lemma loaded_shown : controls_shown (@loaded Z _) = true.
Proof. reflexivity. Qed.

Lemma loaded_live : live (lottie (@loaded Z _)) = [0].
Proof. reflexivity. Qed.

(** The document [0] is loaded: metadata, but no viewport. *)
Lemma reachable_zero :
  reachable (step (@mounted Z _) (FileRead "zero.json" 1%Z (Some (JNum 0%Z)))).
Proof. constructor. apply reachable_mounted. Qed.

(** The scenario document is loaded and stopped. *)
Lemma reachable_stopped : reachable (step (@loaded Z _) ClickStop).
Proof. constructor. apply reachable_loaded. Qed.

Lemma background_is_cosmetic_witness :
  reachable (@loaded Z _) /\ controls_shown (@loaded Z _) = true
  /\ backgroundColor (settings (app (step (@loaded Z _)
                                       (ColorInput "#000000"))))
     = "#000000"
  /\ lottie (step (@loaded Z _) (ColorInput "#000000")) = lottie loaded.
Proof.
  split; [exact reachable_loaded |]. split; [exact loaded_shown |].
  destruct (background_is_cosmetic (@loaded Z _) "#000000"
              reachable_loaded loaded_shown) as (Hb & Hl & _).
  split; [exact Hb | exact Hl].
Defined.

Lemma one_session_at_all_times_witness :
  reachable (@loaded Z _)
  /\ never_two_live (lottie (@loaded Z _))
  /\ containerRef (@loaded Z _) = controls_shown loaded
  /\ (controls_shown (@loaded Z _) = true ->
      exists i, animationInstanceRef (@loaded Z _) = Some i
                /\ live (lottie (@loaded Z _)) = [i])
  /\ (controls_shown (@loaded Z _) = false ->
      live (lottie (@loaded Z _)) = []).
Proof.
  split; [exact reachable_loaded |].
  exact (one_session_at_all_times (@loaded Z _) reachable_loaded).
Defined.

Lemma play_pause_twice_restores_witness :
  reachable (@loaded Z _) /\ live (lottie (@loaded Z _)) = [0]
  /\ app (step (step (@loaded Z _) ClickPlayPause) ClickPlayPause)
     = app loaded
  /\ lottie (step (step (@loaded Z _) ClickPlayPause) ClickPlayPause)
     = (lottie (@loaded Z _) ++ [pause 0; play 0])%list.
Proof.
  split; [exact reachable_loaded |]. split; [exact loaded_live |].
  exact (play_pause_twice_restores (@loaded Z _) 0 reachable_loaded
           loaded_live).
Defined.

Lemma restart_leaves_play_flag_witness :
  reachable (@loaded Z _) /\ live (lottie (@loaded Z _)) = [0]
  /\ isPlaying (app (step (step (@loaded Z _) ClickStop) ClickRestart))
     = false
  /\ lottie (step (step (step (@loaded Z _) ClickStop) ClickRestart)
               ClickPlayPause)
     = (lottie (@loaded Z _) ++ [stop 0; goToAndPlay 0 0%Z; play 0])%list.
Proof.
  split; [exact reachable_loaded |]. split; [exact loaded_live |].
  destruct (restart_leaves_play_flag (@loaded Z _) 0 reachable_loaded
              loaded_live) as (_ & Hf & Hl & _).
  split; [exact Hf | exact Hl].
Defined.

Lemma session_follows_settings_witness :
  reachable (@loaded Z _) /\ controls_shown (@loaded Z _) = true
  /\ exists i d,
       animationInstanceRef (@loaded Z _) = Some i
       /\ last_create (lottie (@loaded Z _))
          = Some (loadAnimation i (renderer (settings (app loaded)))
                    (loop (settings (app loaded))) true d)
       /\ content d = content (animationData (app loaded))
       /\ last_speed i (lottie (@loaded Z _))
          = Some (speed (settings (app loaded))).
Proof.
  split; [exact reachable_loaded |]. split; [exact loaded_shown |].
  exact (session_follows_settings (@loaded Z _) reachable_loaded
           loaded_shown).
Defined.

Lemma metadata_follows_document_witness :
  reachable (@loaded Z _)
  /\ content (animationData (app (@loaded Z _))) <> JNull
  /\ exists fn fs,
       metadata (app (@loaded Z _))
       = Some (copied_metadata fn fs
                 (content (animationData (app loaded)))).
Proof.
  assert (Hd : content (animationData (app (@loaded Z _))) <> JNull)
    by discriminate.
  split; [exact reachable_loaded |]. split; [exact Hd |].
  exact (metadata_follows_document (@loaded Z _) reachable_loaded Hd).
Defined.

Lemma null_upload_clears_document_witness :
  reachable (@loaded Z _)
  /\ content (animationData (app (step (@loaded Z _)
                (FileRead "null.json" 4%Z (Some JNull))))) = JNull
  /\ metadata (app (step (@loaded Z _)
                      (FileRead "null.json" 4%Z (Some JNull))))
     = metadata (app loaded)
  /\ live (lottie (step (@loaded Z _)
                     (FileRead "null.json" 4%Z (Some JNull)))) = [].
Proof.
  split; [exact reachable_loaded |].
  destruct (null_upload_clears_document (@loaded Z _) "null.json" 4%Z
              reachable_loaded) as (_ & Hc & Hm & _ & _ & Hl).
  split; [exact Hc |]. split; [exact Hm | exact Hl].
Defined.

Lemma upload_session_iff_truthy_witness :
  reachable (@loaded Z _)
  /\ crashed (@loaded Z _) = false
  /\ renderable (copied_metadata "zero.json" 1%Z (JNum 0%Z)) = true
  /\ controls_shown (step (@loaded Z _)
                       (FileRead "zero.json" 1%Z (Some (JNum 0%Z))))
     = false
  /\ live (lottie (step (@loaded Z _)
                     (FileRead "zero.json" 1%Z (Some (JNum 0%Z))))) = [].
Proof.
  split; [exact reachable_loaded |].
  destruct (upload_session_iff_truthy (@loaded Z _) "zero.json" 1%Z
              (JNum 0%Z) reachable_loaded eq_refl (fun _ => eq_refl))
    as (_ & Hs & _ & Hl).
  split; [reflexivity |]. split; [reflexivity |].
  split; [exact Hs | exact (Hl eq_refl)].
Defined.

Lemma reload_replaces_session_witness :
  reachable (@loaded Z _) /\ crashed (@loaded Z _) = false
  /\ is_document (@scenario_document Z _) = true
  /\ renderable (copied_metadata "scenario.json" 2048%Z
                   (@scenario_document Z _)) = true
  /\ animationInstanceRef (@loaded Z _) = Some 0
  /\ lottie (step (@loaded Z _) scenario_upload)
     = (lottie (@loaded Z _) ++
        [destroy 0; destroy 0;
         loadAnimation 1 svg true true
           {| object_id := 2; content := scenario_document |};
         setSpeed 1 1%Z])%list
  /\ live (lottie (step (@loaded Z _) scenario_upload)) = [1].
Proof.
  split; [exact reachable_loaded |]. split; [reflexivity |].
  split; [reflexivity |]. split; [reflexivity |]. split; [reflexivity |].
  destruct (reload_replaces_session (@loaded Z _) "scenario.json" 2048%Z
              scenario_document 0 reachable_loaded eq_refl eq_refl eq_refl
              eq_refl)
    as (Hl & _ & Hv & _).
  split; [exact Hl | exact Hv].
Defined.

Lemma analysis_panel_shows_stored_witness :
  reachable (step (@analyzing Z _) (AnalysisSettled (Fulfilled (Some ""))))
  /\ analysis_panel
       (app (step (@analyzing Z _) (AnalysisSettled (Fulfilled (Some "")))))
     = analysis
         (app (step (@analyzing Z _)
                 (AnalysisSettled (Fulfilled (Some ""))))).
Proof.
  assert (Hx : reachable (step (@analyzing Z _)
                            (AnalysisSettled (Fulfilled (Some "")))))
    by (constructor; exact reachable_analyzing).
  split; [exact Hx |].
  exact (analysis_panel_shows_stored _ Hx).
Defined.

Lemma stale_analysis_lands_on_new_document_witness :
  0 < in_flight (@analyzing Z _) /\ @JObj Z [] <> JNull
  /\ "A spinner." <> ""
  /\ analysis (app (step (step (@analyzing Z _)
                            (FileRead "empty.json" 2%Z (Some (JObj []))))
                      (AnalysisSettled (Fulfilled (Some "A spinner.")))))
     = Some "A spinner."
  /\ content (animationData
                (app (step (step (@analyzing Z _)
                              (FileRead "empty.json" 2%Z (Some (JObj []))))
                        (AnalysisSettled (Fulfilled (Some "A spinner."))))))
     = JObj [].
Proof.
  assert (Hp : 0 < in_flight (@analyzing Z _)) by (vm_compute; lia).
  assert (Hd : @JObj Z [] <> JNull) by discriminate.
  assert (Hs : "A spinner." <> "") by discriminate.
  split; [exact Hp |]. split; [exact Hd |]. split; [exact Hs |].
  destruct (stale_analysis_lands_on_new_document (@analyzing Z _)
              "empty.json" 2%Z (JObj []) "A spinner." Hp Hd Hs)
    as (_ & _ & Ha & Hc).
  split; [exact Ha | exact Hc].
Defined.

Lemma unmount_releases_viewport_witness :
  reachable (@loaded Z _)
  /\ live (lottie (unmount (@loaded Z _))) = []
  /\ never_two_live (lottie (unmount (@loaded Z _))).
Proof.
  split; [exact reachable_loaded |].
  destruct (unmount_releases_viewport (@loaded Z _) reachable_loaded)
    as (Hl & Hn & _).
  split; [exact Hl | exact Hn].
Defined.

Lemma request_agrees_with_metadata_witness :
  reachable (@loaded Z _) /\ controls_shown (@loaded Z _) = true
  /\ prompt_fr (analysis_request (app (@loaded Z _)))
     = summary_fr (analysis_request (app (@loaded Z _)))
  /\ prompt_layers (analysis_request (app (@loaded Z _)))
     = or_else (layersCount (analysis_request (app (@loaded Z _))))
               (Val (JNum (num_of_nat 0))).
Proof.
  split; [exact reachable_loaded |]. split; [exact loaded_shown |].
  exact (request_agrees_with_metadata (@loaded Z _) reachable_loaded
           loaded_shown).
Defined.

Lemma analyze_needs_document_witness :
  reachable (step (@mounted Z _)
               (FileRead "zero.json" 1%Z (Some (JNum 0%Z))))
  /\ controls_shown (step (@mounted Z _)
                       (FileRead "zero.json" 1%Z (Some (JNum 0%Z))))
     = false
  /\ analyze_enabled (step (@mounted Z _)
                        (FileRead "zero.json" 1%Z (Some (JNum 0%Z))))
     = true
  /\ step (step (@mounted Z _)
             (FileRead "zero.json" 1%Z (Some (JNum 0%Z))))
          (ClickAnalyze None)
     = step mounted (FileRead "zero.json" 1%Z (Some (JNum 0%Z))).
Proof.
  split; [exact reachable_zero |]. split; [reflexivity |].
  split; [reflexivity |].
  exact (analyze_needs_document _ None reachable_zero eq_refl).
Defined.

Lemma pending_flag_tracks_request_witness :
  reachable (@analyzing Z _)
  /\ (isAnalyzing (app (@analyzing Z _)) = true
      <-> in_flight (@analyzing Z _) = 1)
  /\ (isAnalyzing (app (@analyzing Z _)) = false
      <-> in_flight (@analyzing Z _) = 0).
Proof.
  split; [exact reachable_analyzing |].
  exact (pending_flag_tracks_request (@analyzing Z _) reachable_analyzing).
Defined.


(** The scenario document is replaced by a document whose [fr] is an
    object. *)
Lemma unrenderable_upload_unmounts_witness :
  reachable (@loaded Z _) /\ crashed (@loaded Z _) = false
  /\ @JObj Z [("fr", JObj [])] <> JNull
  /\ renderable (copied_metadata "fr.json" 9%Z
                   (@JObj Z [("fr", JObj [])])) = false
  /\ crashed (step (@loaded Z _)
                (FileRead "fr.json" 9%Z (Some (JObj [("fr", JObj [])]))))
     = true
  /\ lottie (step (@loaded Z _)
               (FileRead "fr.json" 9%Z (Some (JObj [("fr", JObj [])]))))
     = (lottie (@loaded Z _) ++ [destroy 0])%list
  /\ live (lottie (step (@loaded Z _)
                     (FileRead "fr.json" 9%Z
                        (Some (JObj [("fr", JObj [])]))))) = [].
Proof.
  assert (Hd : @JObj Z [("fr", JObj [])] <> JNull) by discriminate.
  split; [exact reachable_loaded |]. split; [reflexivity |].
  split; [exact Hd |]. split; [reflexivity |].
  destruct (unrenderable_upload_unmounts (@loaded Z _) "fr.json" 9%Z
              (JObj [("fr", JObj [])]) reachable_loaded eq_refl Hd eq_refl)
    as (Hc & _ & Hl & Hv & _).
  split; [exact Hc |]. split; [exact Hl | exact Hv].
Defined.

Lemma rebuild_autoplays_witness :
  reachable (step (@loaded Z _) ClickStop)
  /\ creates (lottie (step (step (@loaded Z _) ClickStop) ClickLoop))
     <> creates (lottie (step (@loaded Z _) ClickStop))
  /\ isPlaying (app (step (@loaded Z _) ClickStop)) = false
  /\ isPlaying (app (step (step (@loaded Z _) ClickStop) ClickLoop)) = true.
Proof.
  assert (Hc : creates (lottie (step (step (@loaded Z _) ClickStop)
                                  ClickLoop))
               <> creates (lottie (step (@loaded Z _) ClickStop)))
    by (vm_compute; discriminate).
  split; [exact reachable_stopped |]. split; [exact Hc |].
  split; [vm_compute; reflexivity |].
  destruct (rebuild_autoplays (step (@loaded Z _) ClickStop) ClickLoop
              reachable_stopped Hc) as (Hp & _).
  exact Hp.
Defined.
